(** * Placement portal (app.py): intake, scoring and ranking pipeline

    A shallow embedding of the Flask application: the request handlers are
    functions in a state-and-exception monad over the three durable stores
    (users.csv, submissions.csv, the resumes folder) and the client session.

    Conventions.
    - Python [str] values are byte strings ([string]); case mapping and
      whitespace are the ASCII ones.
    - Exceptions are the objects an [except Exception] clause can catch: a
      class and the text [str(e)] gives.
    - A CSV file is the sequence of rows [csv.writer] wrote to it; reading
      it yields these rows with the line ends inside their fields translated
      ([Csv.universal_newlines]). The quoting layer of the csv module is not
      part of the model beyond that, and neither is a NUL character in a
      field.
    - The resumes folder is a set of named files; names compare as byte
      strings (a case-sensitive file system, POSIX paths).
    - The generative model, [json.loads] and werkzeug's [secure_filename] are
      collaborators outside the repository: the handlers take them as
      parameters, and reference implementations are given to run the handlers
      on concrete requests. *)

From Stdlib Require Import ZArith List String Ascii Bool Lia.
From Stdlib Require Import Permutation Sorted FinFun.
From Stdlib Require Import DecimalString DecimalZ.
From Stdlib Require Import Floats.SpecFloat.
Import ListNotations.
Open Scope string_scope.
Open Scope Z_scope.
Set Warnings "-register-all".

(** ** The fragment of the Python runtime the application relies on *)

Module Py.

Inductive exn_class :=
| JSONDecodeError      (* json.JSONDecodeError, a subclass of ValueError *)
| ValueError
| TypeError
| AttributeError
| OverflowError
| FileNotFoundError
| OtherException (name : string).

Record exn := mkExn { exn_cls : exn_class; exn_str : string }.

Inductive result (A : Type) :=
| Ok (a : A)
| Raise (e : exn).
Arguments Ok {A} a.
Arguments Raise {A} e.

Definition is_JSONDecodeError (e : exn) : bool :=
  match exn_cls e with JSONDecodeError => true | _ => false end.

(** [try: body / except <cls> as e: handler e]. *)
Definition try_except {A} (body : result A) (catches : exn -> bool)
           (handler : exn -> result A) : result A :=
  match body with
  | Ok a => Ok a
  | Raise e => if catches e then handler e else Raise e
  end.

Definition rbind {A B} (m : result A) (k : A -> result B) : result B :=
  match m with
  | Ok a => k a
  | Raise e => Raise e
  end.

(** *** str *)

Definition code (c : ascii) : nat := nat_of_ascii c.

(** The double quote character, and [s] between two of them. *)
Definition dq : ascii := "034"%char.
Definition quoted (s : string) : string := String dq (s ++ String dq "").

(** Line feed. *)
Definition nl : string := String "010"%char "".

(** Whitespace removed by [str.strip()] and ignored by [int()]. *)
Definition is_space (c : ascii) : bool :=
  let n := code c in
  ((9 <=? n) && (n <=? 13) || (28 <=? n) && (n <=? 32))%nat.

Definition is_digit (c : ascii) : bool :=
  let n := code c in ((48 <=? n) && (n <=? 57))%nat.

Definition digit_val (c : ascii) : Z := Z.of_nat (code c) - 48.

Fixpoint lstrip (s : string) : string :=
  match s with
  | String c s' => if is_space c then lstrip s' else s
  | EmptyString => EmptyString
  end.

Fixpoint rstrip (s : string) : string :=
  match s with
  | String c s' =>
      match rstrip s' with
      | EmptyString => if is_space c then EmptyString else String c EmptyString
      | r => String c r
      end
  | EmptyString => EmptyString
  end.

Definition strip (s : string) : string := lstrip (rstrip s).

Definition lower_char (c : ascii) : ascii :=
  let n := code c in
  if ((65 <=? n) && (n <=? 90))%nat then ascii_of_nat (n + 32) else c.

Fixpoint lower (s : string) : string :=
  match s with
  | String c s' => String (lower_char c) (lower s')
  | EmptyString => EmptyString
  end.

(** Truth value of a [str]. *)
Definition truthy (s : string) : bool :=
  match s with EmptyString => false | _ => true end.

Fixpoint contains (c : ascii) (s : string) : bool :=
  match s with
  | String d s' => Ascii.eqb c d || contains c s'
  | EmptyString => false
  end.

(** [s.rfind(c)], with [None] for -1. *)
Fixpoint rfind (c : ascii) (s : string) : option nat :=
  match s with
  | String d s' =>
      match rfind c s' with
      | Some i => Some (S i)
      | None => if Ascii.eqb c d then Some O else None
      end
  | EmptyString => None
  end.

(** [p[i:]] and [p[:i]]. *)
Fixpoint drop (i : nat) (s : string) : string :=
  match i, s with
  | S i', String _ s' => drop i' s'
  | _, _ => s
  end.

Fixpoint take (i : nat) (s : string) : string :=
  match i, s with
  | S i', String c s' => String c (take i' s')
  | _, _ => EmptyString
  end.

Fixpoint all_dots (s : string) : bool :=
  match s with
  | String c s' => Ascii.eqb c "." && all_dots s'
  | EmptyString => true
  end.

(** [os.path.splitext] (posixpath: [sep = "/"], no [altsep]): the extension
    starts at the last dot of the last path component, unless that
    component has only dots before it. *)
Definition splitext (p : string) : string * string :=
  let sepIndex := rfind "/" p in
  let dotIndex := rfind "." p in
  match dotIndex with
  | None => (p, EmptyString)
  | Some d =>
      let filenameIndex := match sepIndex with Some i => S i | None => O end in
      if (filenameIndex <=? d)%nat
      then if all_dots (take (d - filenameIndex) (drop filenameIndex p))
           then (p, EmptyString)
           else (take d p, drop d p)
      else (p, EmptyString)
  end.

(** [str(n)] for an [int]. *)
Definition str_of_int (n : Z) : string :=
  NilZero.string_of_int (Z.to_int n).

(** The digit part of an integer literal: digits, with single underscores
    allowed between two digits. [prev] tells whether the previous character
    was a digit. *)
Fixpoint digits_val (acc : Z) (prev : bool) (s : string) : option Z :=
  match s with
  | String c s' =>
      if is_digit c then digits_val (10 * acc + digit_val c) true s'
      else if Ascii.eqb c "_" then
             if prev then digits_val acc false s' else None
           else None
  | EmptyString => if prev then Some acc else None
  end.

Definition hex_digit (n : nat) : ascii :=
  if (n <? 10)%nat then ascii_of_nat (48 + n) else ascii_of_nat (87 + n).

Fixpoint repr_body (q : ascii) (s : string) : string :=
  match s with
  | String c s' =>
      let n := code c in
      (if Ascii.eqb c "\" then "\\"
       else if Ascii.eqb c q then String "\" (String q "")
       else if (n =? 10)%nat then "\n"
       else if (n =? 13)%nat then "\r"
       else if (n =? 9)%nat then "\t"
       else if ((n <? 32) || (n =? 127))%nat
            then "\x" ++ String (hex_digit (n / 16)) (String (hex_digit (n mod 16)) "")
            else String c "")
      ++ repr_body q s'
  | EmptyString => EmptyString
  end.

(** [repr(s)] for a [str]. *)
Definition repr (s : string) : string :=
  let q : ascii :=
    if contains "'" s && negb (contains dq s) then dq else "'"%char in
  String q (repr_body q s ++ String q "").

(** [int(s)] for a [str]: base 10, surrounding whitespace ignored. *)
Definition int_of_str (s : string) : result Z :=
  let t := strip s in
  let '(neg, body) :=
    match t with
    | String "-" r => (true, r)
    | String "+" r => (false, r)
    | _ => (false, t)
    end in
  match digits_val 0 false body with
  | Some n => Ok (if neg then - n else n)
  | None =>
      Raise (mkExn ValueError
               ("invalid literal for int() with base 10: " ++ repr s))
  end.

(** *** Values *)

(** The values [json.loads] and [csv.DictReader] produce. A dict keeps its
    items in insertion order with pairwise distinct keys. *)
Inductive pyval :=
| PyNone
| PyBool (b : bool)
| PyInt (n : Z)
| PyFloat (f : spec_float)
| PyStr (s : string)
| PyList (l : list pyval)
| PyDict (d : list (string * pyval)).

Definition type_name (v : pyval) : string :=
  match v with
  | PyNone => "NoneType"
  | PyBool _ => "bool"
  | PyInt _ => "int"
  | PyFloat _ => "float"
  | PyStr _ => "str"
  | PyList _ => "list"
  | PyDict _ => "dict"
  end.

(** [int(f)] for a [float]: truncation toward zero. *)
Definition int_of_float (f : spec_float) : result Z :=
  match f with
  | S754_zero _ => Ok 0
  | S754_infinity _ =>
      Raise (mkExn OverflowError "cannot convert float infinity to integer")
  | S754_nan =>
      Raise (mkExn ValueError "cannot convert float NaN to integer")
  | S754_finite s m e =>
      let a := if 0 <=? e then Z.pos m * 2 ^ e else Z.pos m / 2 ^ (- e) in
      Ok (if s then - a else a)
  end.

(** The builtin [int(v)]. *)
Definition int (v : pyval) : result Z :=
  match v with
  | PyInt n => Ok n
  | PyBool b => Ok (if b then 1 else 0)
  | PyFloat f => int_of_float f
  | PyStr s => int_of_str s
  | _ =>
      Raise (mkExn TypeError
               ("int() argument must be a string, a bytes-like object or a real number, not '"
                  ++ type_name v ++ "'"))
  end.

Fixpoint lookup {A} (k : string) (d : list (string * A)) : option A :=
  match d with
  | (k', v) :: d' => if String.eqb k k' then Some v else lookup k d'
  | [] => None
  end.

(** [d[k] = v]: overwrite in place, or add at the end. *)
Fixpoint setitem {K A} (eqb : K -> K -> bool) (k : K) (v : A)
         (d : list (K * A)) : list (K * A) :=
  match d with
  | (k', v') :: d' =>
      if eqb k k' then (k, v) :: d' else (k', v') :: setitem eqb k v d'
  | [] => [(k, v)]
  end.

(** [v.get(key, default)]: only a dict has the method. *)
Definition get (v : pyval) (key : string) (default : pyval) : result pyval :=
  match v with
  | PyDict d =>
      Ok (match lookup key d with Some x => x | None => default end)
  | _ =>
      Raise (mkExn AttributeError
               ("'" ++ type_name v ++ "' object has no attribute 'get'"))
  end.

End Py.
Import Py.

(** ** Reference decoder for [json.loads]

    The grammar and the conversions of the standard library's decoder with its
    default hooks: [null], [true], [false], [NaN], [Infinity], [-Infinity],
    numbers (an integer literal becomes an [int], a literal with a fraction or
    an exponent the nearest binary64 [float]), strings (strict mode: no raw
    control character), arrays and objects. Every failure of the decoder is a
    [JSONDecodeError]; [None] stands for it below. Recursion is bounded by the
    length of the text, which no nesting can exceed (the interpreter's own
    recursion limit is not modelled). *)

Module Json.

Definition is_ws (c : ascii) : bool :=
  let n := code c in
  ((n =? 32) || (n =? 9) || (n =? 10) || (n =? 13))%nat.

Fixpoint skip_ws (s : string) : string :=
  match s with
  | String c s' => if is_ws c then skip_ws s' else s
  | EmptyString => EmptyString
  end.

(** [s] without the prefix [lit], when it starts with it. *)
Fixpoint after (lit s : string) : option string :=
  match lit, s with
  | EmptyString, _ => Some s
  | String a lit', String b s' => if Ascii.eqb a b then after lit' s' else None
  | String _ _, EmptyString => None
  end.

Fixpoint span_digits (s : string) : string * string :=
  match s with
  | String c s' =>
      if is_digit c
      then let '(ds, r) := span_digits s' in (String c ds, r)
      else (EmptyString, s)
  | EmptyString => (EmptyString, EmptyString)
  end.

Fixpoint nat_digits (acc : Z) (s : string) : Z :=
  match s with
  | String c s' => nat_digits (10 * acc + digit_val c) s'
  | EmptyString => acc
  end.

(** [float(text)] for the decimal [(-1)^neg * m * 10^e]: round to nearest,
    ties to even, in binary64. *)
Definition float_of_decimal (neg : bool) (m e : Z) : spec_float :=
  match m with
  | Z.pos p =>
      if 0 <=? e
      then binary_normalize 53 1024 ((if neg then Z.neg p else Z.pos p) * 10 ^ e) 0 false
      else SFdiv 53 1024 (S754_finite neg p 0)
                 (S754_finite false (Z.to_pos (10 ^ (- e))) 0)
  | _ => S754_zero neg
  end.

Definition scan_number (s : string) : option (pyval * string) :=
  let '(neg, s1) :=
    match s with String "-" r => (true, r) | _ => (false, s) end in
  let int_part :=
    match s1 with
    | String c r =>
        if Ascii.eqb c "0" then Some ("0", r)
        else if is_digit c then Some (span_digits s1)
        else None
    | EmptyString => None
    end in
  match int_part with
  | None => None
  | Some (ds, r1) =>
      let '(fs, r2) :=
        match r1 with
        | String "." r =>
            match span_digits r with
            | (EmptyString, _) => (EmptyString, r1)
            | (fs, r') => (fs, r')
            end
        | _ => (EmptyString, r1)
        end in
      let '(ex, r3) :=
        match r2 with
        | String c r =>
            if Ascii.eqb c "e" || Ascii.eqb c "E" then
              let '(eneg, r') :=
                match r with
                | String "-" r' => (true, r')
                | String "+" r' => (false, r')
                | _ => (false, r)
                end in
              match span_digits r' with
              | (EmptyString, _) => (None, r2)
              | (es, r'') =>
                  (Some (if eneg then - nat_digits 0 es else nat_digits 0 es), r'')
              end
            else (None, r2)
        | EmptyString => (None, r2)
        end in
      match fs, ex with
      | EmptyString, None =>
          let n := nat_digits 0 ds in
          Some (PyInt (if neg then - n else n), r3)
      | _, _ =>
          let m := nat_digits 0 (ds ++ fs) in
          let e := match ex with Some e => e | None => 0 end
                   - Z.of_nat (String.length fs) in
          Some (PyFloat (float_of_decimal neg m e), r3)
      end
  end.

Definition hex_val (c : ascii) : option Z :=
  let n := code c in
  if ((48 <=? n) && (n <=? 57))%nat then Some (Z.of_nat n - 48)
  else if ((97 <=? n) && (n <=? 102))%nat then Some (Z.of_nat n - 87)
  else if ((65 <=? n) && (n <=? 70))%nat then Some (Z.of_nat n - 55)
  else None.

(** The four hex digits of a [\uXXXX] escape. *)
Definition hex4 (s : string) : option (Z * string) :=
  match s with
  | String a (String b (String c (String d r))) =>
      match hex_val a, hex_val b, hex_val c, hex_val d with
      | Some x, Some y, Some z, Some w => Some (((x * 16 + y) * 16 + z) * 16 + w, r)
      | _, _, _, _ => None
      end
  | _ => None
  end.

Definition byte (n : Z) : ascii := ascii_of_nat (Z.to_nat n).

(** UTF-8 bytes of a code point. *)
Definition utf8 (u : Z) : string :=
  if u <? 128 then String (byte u) ""
  else if u <? 2048 then
    String (byte (192 + u / 64)) (String (byte (128 + u mod 64)) "")
  else if u <? 65536 then
    String (byte (224 + u / 4096))
      (String (byte (128 + (u / 64) mod 64)) (String (byte (128 + u mod 64)) ""))
  else
    String (byte (240 + u / 262144))
      (String (byte (128 + (u / 4096) mod 64))
         (String (byte (128 + (u / 64) mod 64)) (String (byte (128 + u mod 64)) ""))).

(** The body of a string, after its opening quote. *)
Fixpoint scanstring (n : nat) (s : string) : option (string * string) :=
  match n with
  | O => None
  | S n' =>
      match s with
      | EmptyString => None
      | String c r =>
          if Ascii.eqb c dq then Some (EmptyString, r)
          else if Ascii.eqb c "\" then
            match r with
            | EmptyString => None
            | String e r' =>
                let simple (ch : nat) :=
                  match scanstring n' r' with
                  | Some (t, rest) => Some (String (ascii_of_nat ch) t, rest)
                  | None => None
                  end in
                if Ascii.eqb e dq then simple 34%nat
                else if Ascii.eqb e "\" then simple 92%nat
                else if Ascii.eqb e "/" then simple 47%nat
                else if Ascii.eqb e "b" then simple 8%nat
                else if Ascii.eqb e "f" then simple 12%nat
                else if Ascii.eqb e "n" then simple 10%nat
                else if Ascii.eqb e "r" then simple 13%nat
                else if Ascii.eqb e "t" then simple 9%nat
                else if Ascii.eqb e "u" then
                  match hex4 r' with
                  | None => None
                  | Some (u, r1) =>
                      let paired :=
                        if (55296 <=? u) && (u <=? 56319) then
                          match after "\u" r1 with
                          | Some r2 =>
                              match hex4 r2 with
                              | None => None
                              | Some (u2, r3) =>
                                  if (56320 <=? u2) && (u2 <=? 57343)
                                  then Some (65536 + (u - 55296) * 1024 + (u2 - 56320), r3)
                                  else Some (u, r1)
                              end
                          | None => Some (u, r1)
                          end
                        else Some (u, r1) in
                      match paired with
                      | None => None
                      | Some (cp, r4) =>
                          match scanstring n' r4 with
                          | Some (t, rest) => Some (utf8 cp ++ t, rest)
                          | None => None
                          end
                      end
                  end
                else None
            end
          else if (code c <? 32)%nat then None
          else
            match scanstring n' r with
            | Some (t, rest) => Some (String c t, rest)
            | None => None
            end
      end
  end.

Definition parse_string (s : string) : option (string * string) :=
  scanstring (S (String.length s)) s.

(** The elements of an array, after the first one's leading whitespace. *)
Fixpoint elements (n : nat) (scan : string -> option (pyval * string))
         (acc : list pyval) (s : string) : option (list pyval * string) :=
  match n with
  | O => None
  | S n' =>
      match scan s with
      | None => None
      | Some (v, r) =>
          match skip_ws r with
          | String "]" r' => Some (rev (v :: acc), r')
          | String "," r' => elements n' scan (v :: acc) (skip_ws r')
          | _ => None
          end
      end
  end.

(** The members of an object, from the opening quote of the first key. *)
Fixpoint members (n : nat) (scan : string -> option (pyval * string))
         (acc : list (string * pyval)) (s : string)
  : option (list (string * pyval) * string) :=
  match n with
  | O => None
  | S n' =>
      match s with
      | String "034" r =>
          match parse_string r with
          | None => None
          | Some (key, r1) =>
              match skip_ws r1 with
              | String ":" r2 =>
                  match scan (skip_ws r2) with
                  | None => None
                  | Some (v, r3) =>
                      let acc' := setitem String.eqb key v acc in
                      match skip_ws r3 with
                      | String "}" r4 => Some (acc', r4)
                      | String "," r4 => members n' scan acc' (skip_ws r4)
                      | _ => None
                      end
                  end
              | _ => None
              end
          end
      | _ => None
      end
  end.

Fixpoint scan_once (fuel : nat) (s : string) : option (pyval * string) :=
  match fuel with
  | O => None
  | S fuel' =>
      match s with
      | EmptyString => None
      | String c r =>
          if Ascii.eqb c dq then
            match parse_string r with
            | Some (t, rest) => Some (PyStr t, rest)
            | None => None
            end
          else if Ascii.eqb c "{" then
            match skip_ws r with
            | String "}" r' => Some (PyDict [], r')
            | r' =>
                match members (S (String.length r')) (scan_once fuel') [] r' with
                | Some (d, rest) => Some (PyDict d, rest)
                | None => None
                end
            end
          else if Ascii.eqb c "[" then
            match skip_ws r with
            | String "]" r' => Some (PyList [], r')
            | r' =>
                match elements (S (String.length r')) (scan_once fuel') [] r' with
                | Some (l, rest) => Some (PyList l, rest)
                | None => None
                end
            end
          else
            match after "null" s, after "true" s, after "false" s with
            | Some rest, _, _ => Some (PyNone, rest)
            | _, Some rest, _ => Some (PyBool true, rest)
            | _, _, Some rest => Some (PyBool false, rest)
            | None, None, None =>
                match after "NaN" s, after "Infinity" s, after "-Infinity" s with
                | Some rest, _, _ => Some (PyFloat S754_nan, rest)
                | _, Some rest, _ => Some (PyFloat (S754_infinity false), rest)
                | _, _, Some rest => Some (PyFloat (S754_infinity true), rest)
                | None, None, None => scan_number s
                end
            end
      end
  end.

(** [json.loads(s)] for a [str]: one value, surrounded by optional
    whitespace and nothing else. *)
Definition loads (s : string) : result pyval :=
  let s0 := skip_ws s in
  match scan_once (S (String.length s0)) s0 with
  | Some (v, rest) =>
      match skip_ws rest with
      | EmptyString => Ok v
      | _ => Raise (mkExn JSONDecodeError "Extra data")
      end
  | None => Raise (mkExn JSONDecodeError "Expecting value")
  end.

End Json.


(** ** Reference implementation of werkzeug's [secure_filename]

    For ASCII names on a POSIX host: path separators become spaces, runs of
    whitespace become one underscore, every character outside
    [A-Za-z0-9_.-] is removed, and dots and underscores are stripped from
    both ends. Bytes outside ASCII are dropped (the Unicode decomposition
    that precedes it in the library is not modelled). *)

Module Werkzeug.

Definition keep (c : ascii) : bool :=
  let n := code c in
  ((48 <=? n) && (n <=? 57) || (65 <=? n) && (n <=? 90)
   || (97 <=? n) && (n <=? 122) || (n =? 95) || (n =? 46) || (n =? 45))%nat.

Fixpoint filter_chars (f : ascii -> bool) (s : string) : string :=
  match s with
  | String c s' => if f c then String c (filter_chars f s') else filter_chars f s'
  | EmptyString => EmptyString
  end.

Fixpoint map_chars (f : ascii -> ascii) (s : string) : string :=
  match s with
  | String c s' => String (f c) (map_chars f s')
  | EmptyString => EmptyString
  end.

(** [s.split()]: the maximal runs without whitespace. [cur] is the run
    being read, reversed. *)
Fixpoint split_ws (cur : list ascii) (s : string) : list string :=
  let flush (k : list string) :=
    match cur with
    | [] => k
    | _ => string_of_list_ascii (rev cur) :: k
    end in
  match s with
  | String c s' =>
      if is_space c then flush (split_ws [] s') else split_ws (c :: cur) s'
  | EmptyString => flush []
  end.

Fixpoint join (sep : string) (l : list string) : string :=
  match l with
  | [] => EmptyString
  | [x] => x
  | x :: l' => x ++ sep ++ join sep l'
  end.

Definition is_dot_or_underscore (c : ascii) : bool :=
  Ascii.eqb c "." || Ascii.eqb c "_".

Fixpoint lstrip_chars (f : ascii -> bool) (s : string) : string :=
  match s with
  | String c s' => if f c then lstrip_chars f s' else s
  | EmptyString => EmptyString
  end.

Fixpoint rstrip_chars (f : ascii -> bool) (s : string) : string :=
  match s with
  | String c s' =>
      match rstrip_chars f s' with
      | EmptyString => if f c then EmptyString else String c EmptyString
      | r => String c r
      end
  | EmptyString => EmptyString
  end.

Definition secure_filename (filename : string) : string :=
  let filename := filter_chars (fun c => (code c <? 128)%nat) filename in
  let filename :=
    map_chars (fun c => if Ascii.eqb c "/" then " "%char else c) filename in
  let filename := filter_chars keep (join "_" (split_ws [] filename)) in
  lstrip_chars is_dot_or_underscore (rstrip_chars is_dot_or_underscore filename).

End Werkzeug.

(** ** csv.DictReader over the rows of a file *)

Module Csv.

Definition row := list string.
Definition table := list row.

(** The dict built for one row. The key [None] is the reader's [restkey]. *)
Definition record := list (option string * pyval).

Definition key_eqb (a b : option string) : bool :=
  match a, b with
  | Some x, Some y => String.eqb x y
  | None, None => true
  | _, _ => false
  end.

(** [dict(zip(fieldnames, row))], added to [d]. *)
Fixpoint zip_into (fieldnames r : row) (d : record) : record :=
  match fieldnames, r with
  | f :: fs, v :: vs => zip_into fs vs (setitem key_eqb (Some f) (PyStr v) d)
  | _, _ => d
  end.

Definition make_record (fieldnames r : row) : record :=
  let d := zip_into fieldnames r [] in
  let lf := List.length fieldnames in
  let lr := List.length r in
  if (lf <? lr)%nat then
    setitem key_eqb None (PyList (map PyStr (skipn lf r))) d
  else
    fold_left (fun d key => setitem key_eqb (Some key) PyNone d)
              (skipn lr fieldnames) d.

Definition nonempty (r : row) : bool :=
  match r with [] => false | _ => true end.

(** The first row gives the field names; empty rows are skipped. *)
Definition DictReader (t : table) : list record :=
  match t with
  | [] => []
  | fieldnames :: rest => map (make_record fieldnames) (filter nonempty rest)
  end.

(** What a file opened for reading without [newline=""] gives for a field
    that was written with it: the carriage return and the pair of a carriage
    return and a line feed are read as one line feed. The writer puts a
    field with such characters between quotes, so they stay in their field.
    The handlers write with [newline=""] (lines 99 and 171) and read without
    (lines 93, 114 and 188). *)
Fixpoint universal_newlines (s : string) : string :=
  match s with
  | String c s' =>
      if Ascii.eqb c "013" then
        match s' with
        | String c' r =>
            if Ascii.eqb c' "010"
            then String "010" (universal_newlines r)
            else String "010" (universal_newlines s')
        | EmptyString => String "010" EmptyString
        end
      else String c (universal_newlines s')
  | EmptyString => EmptyString
  end.

(** The rows [csv.reader] yields from a file with the rows [t]. *)
Definition text_mode (t : table) : table := map (map universal_newlines) t.

(** The records [csv.DictReader] yields from a file with the rows [t]. *)
Definition read_file (t : table) : list record := DictReader (text_mode t).

(** [row.get(key)], with [None] for a missing key. *)
Fixpoint get (r : record) (key : string) : option pyval :=
  match r with
  | (k, v) :: r' => if key_eqb (Some key) k then Some v else get r' key
  | [] => None
  end.

End Csv.

(** ** The server state and the handler monad *)

Inductive path :=
| USERS_CSV
| SUBMISSIONS_CSV
| RESUMES_FOLDER (filename : string).

Inductive mode := mode_r | mode_a | mode_wb.

(** The Flask session of the client: the keys [user] and [is_admin], each
    absent or set. *)
Record session := mkSession {
  user : option string;
  is_admin : option bool
}.

Record world := mkWorld {
  users_csv : option Csv.table;           (* [None]: the file does not exist *)
  submissions_csv : option Csv.table;
  resumes : list (string * string);       (* name and bytes of each stored file *)
  sess : session;
  flashes : list (string * string);       (* message and category, oldest first *)
  opened : list (path * mode)             (* every file opened, oldest first *)
}.

Definition M (A : Type) : Type := world -> result A * world.

Definition ret {A} (a : A) : M A := fun w => (Ok a, w).

Definition bind {A B} (m : M A) (k : A -> M B) : M B :=
  fun w =>
    match m w with
    | (Ok a, w') => k a w'
    | (Raise e, w') => (Raise e, w')
    end.

Definition lift {A} (r : result A) : M A := fun w => (r, w).

Declare Scope handler_scope.
Delimit Scope handler_scope with handler.
Notation "x <- m ;; k" := (bind m (fun x => k))
  (at level 61, m at next level, right associativity) : handler_scope.
Notation "m ;; k" := (bind m (fun _ => k))
  (at level 61, right associativity) : handler_scope.
Open Scope handler_scope.

Definition set_users (t : option Csv.table) (w : world) : world :=
  mkWorld t (submissions_csv w) (resumes w) (sess w) (flashes w) (opened w).
Definition set_submissions (t : option Csv.table) (w : world) : world :=
  mkWorld (users_csv w) t (resumes w) (sess w) (flashes w) (opened w).
Definition set_resumes (r : list (string * string)) (w : world) : world :=
  mkWorld (users_csv w) (submissions_csv w) r (sess w) (flashes w) (opened w).
Definition set_sess (s : session) (w : world) : world :=
  mkWorld (users_csv w) (submissions_csv w) (resumes w) s (flashes w) (opened w).
Definition log_open (p : path) (m : mode) (w : world) : world :=
  mkWorld (users_csv w) (submissions_csv w) (resumes w) (sess w) (flashes w)
          (opened w ++ [(p, m)])%list.

Definition flash (message category : string) : M unit :=
  fun w =>
    (Ok tt,
     mkWorld (users_csv w) (submissions_csv w) (resumes w) (sess w)
             (flashes w ++ [(message, category)])%list (opened w)).

(** [session.clear()]: the flashed messages live in the session too. *)
Definition clear_session : M unit :=
  fun w =>
    (Ok tt,
     mkWorld (users_csv w) (submissions_csv w) (resumes w) (mkSession None None)
             [] (opened w)).

Definition get_session : M session := fun w => (Ok (sess w), w).
Definition put_session (s : session) : M unit := fun w => (Ok tt, set_sess s w).

Definition csv_file (p : path) (w : world) : option Csv.table :=
  match p with
  | USERS_CSV => users_csv w
  | SUBMISSIONS_CSV => submissions_csv w
  | RESUMES_FOLDER _ => None
  end.

Definition stored (filename : string) (w : world) : bool :=
  existsb (fun f => String.eqb (fst f) filename) (resumes w).

(** [os.path.exists(os.path.join(RESUMES_FOLDER, filename))]: a stored file,
    or the folder itself when the name is empty. *)
Definition save_path_exists (filename : string) (w : world) : bool :=
  negb (truthy filename) || stored filename w.

(** [os.path.exists(p)]. *)
Definition path_exists (p : path) : M bool :=
  fun w =>
    (Ok match p with
        | RESUMES_FOLDER filename => save_path_exists filename w
        | _ => match csv_file p w with Some _ => true | None => false end
        end, w).

(** [with open(p, "r") as f: ... csv.DictReader(f) ...]: the rows read. *)
Definition read_dicts (p : path) : M (list Csv.record) :=
  fun w =>
    let w' := log_open p mode_r w in
    match csv_file p w with
    | Some t => (Ok (Csv.read_file t), w')
    | None =>
        (Raise (mkExn FileNotFoundError "[Errno 2] No such file or directory"), w')
    end.

(** [with open(p, "a") as f: csv.writer(f).writerow(r)]: the file is created
    when it does not exist. *)
Definition append_row (p : path) (r : Csv.row) : M unit :=
  fun w =>
    let t := match csv_file p w with Some t => t | None => [] end in
    let w' := log_open p mode_a w in
    (Ok tt,
     match p with
     | USERS_CSV => set_users (Some (t ++ [r])%list) w'
     | SUBMISSIONS_CSV => set_submissions (Some (t ++ [r])%list) w'
     | RESUMES_FOLDER _ => w'
     end).

(** [resume.save(save_path)]: writes the bytes under the name, replacing a
    file of that name. *)
Definition save (filename bytes : string) : M unit :=
  fun w =>
    (Ok tt,
     set_resumes
       (filter (fun f => negb (String.eqb (fst f) filename)) (resumes w)
          ++ [(filename, bytes)])%list
       (log_open (RESUMES_FOLDER filename) mode_wb w)).

(** *** Requests and responses *)

Inductive http_method := GET | POST.

(** An uploaded file ([werkzeug.FileStorage]): true when its name is not
    empty. *)
Record file_storage := mkFile { filename : string; stream : string }.

Record request := mkRequest {
  method : http_method;
  form : list (string * string);
  files : list (string * file_storage)
}.

Definition form_get (req : request) (key default : string) : string :=
  match lookup key (form req) with Some v => v | None => default end.

Inductive response :=
| redirect (endpoint : string)
| render_template (template : string) (data : list Csv.record).

(** ** Configuration and start-up (lines 16 to 32) *)

Definition ALLOWED_EXT : list string := [".pdf"].

Definition users_header : Csv.row := ["Email"; "Password"; "IsAdmin"].
Definition admin_row : Csv.row := ["admin@admin.com"; "admin123"; "1"].
Definition submissions_header : Csv.row :=
  ["Name"; "Email"; "Skills"; "Filename"; "AIScore"; "BestRole"; "AIFeedback"].

(** Creates each CSV file that does not exist yet. *)
Definition startup (w : world) : world :=
  let w :=
    match users_csv w with
    | Some _ => w
    | None => set_users (Some [users_header; admin_row]) w
    end in
  match submissions_csv w with
  | Some _ => w
  | None => set_submissions (Some [submissions_header]) w
  end.

(** A first deployment: no file exists, and the client has no session. *)
Definition fresh : world :=
  mkWorld None None [] (mkSession None None) [] [].

(** ** Helpers *)

Definition allowed_file (filename : string) : bool :=
  let ext := lower (snd (splitext filename)) in
  existsb (String.eqb ext) ALLOWED_EXT.

(** [f"{base}_{counter}{ext}"]. *)
Definition candidate (base ext : string) (counter : Z) : string :=
  base ++ "_" ++ str_of_int counter ++ ext.

(** The [while os.path.exists(save_path)] loop of [upload], run for at most
    [fuel] tests: the first free name among [filename], [base_1ext],
    [base_2ext], ... *)
Fixpoint free_name (fuel : nat) (exists_ : string -> bool) (base ext : string)
         (filename : string) (counter : Z) : option string :=
  match fuel with
  | O => None
  | S fuel' =>
      if exists_ filename
      then free_name fuel' exists_ base ext
             (candidate base ext counter) (counter + 1)
      else Some filename
  end.

(** [rows.sort(key=..., reverse=True)], on rows paired with their keys: a
    stable sort, so a row goes before the rows after it that have the same
    key. *)
Fixpoint insert_desc {A} (x : Z * A) (l : list (Z * A)) : list (Z * A) :=
  match l with
  | [] => [x]
  | y :: l' => if fst x <? fst y then y :: insert_desc x l' else x :: l
  end.

Fixpoint sort_desc {A} (l : list (Z * A)) : list (Z * A) :=
  match l with
  | [] => []
  | x :: l' => insert_desc x (sort_desc l')
  end.

(** The keys of all rows, computed before the sort; the first failure is
    raised. *)
Fixpoint with_keys {A} (key : A -> result Z) (l : list A) : result (list (Z * A)) :=
  match l with
  | [] => Ok []
  | x :: l' =>
      rbind (key x) (fun k =>
      rbind (with_keys key l') (fun r => Ok ((k, x) :: r)))
  end.

Definition sort_by_key_desc {A} (key : A -> result Z) (l : list A) : result (list A) :=
  rbind (with_keys key l) (fun kl => Ok (map snd (sort_desc kl))).



(** [lambda r: int(r.get("AIScore", 0))]. *)
Definition score_key (r : Csv.record) : result Z :=
  Py.int (match Csv.get r "AIScore" with Some v => v | None => PyInt 0 end).

(** [row.get(key) == s] for a [str] [s]. *)
Definition field_is (r : Csv.record) (key s : string) : bool :=
  match Csv.get r key with
  | Some (PyStr t) => String.eqb t s
  | _ => false
  end.

(** [str(v)], as an f-string formats a value; [str_] is the builtin on the
    values that are neither [str] nor [int]. *)
Definition format (str_ : pyval -> string) (v : pyval) : string :=
  match v with
  | PyStr s => s
  | PyInt n => str_of_int n
  | _ => str_ v
  end.

(** What [csv.writer] writes for a value: nothing for [None], [str(v)]
    otherwise. *)
Definition csv_field (str_ : pyval -> string) (v : pyval) : string :=
  match v with
  | PyNone => EmptyString
  | _ => format str_ v
  end.

(** ** The application *)

Section App.

(** The call to the generative model (lines 56, 63 and 64): the text of
    the response to a prompt, or the exception raised on the way. *)
Variable generate_content : string -> result string.
Variable json_loads : string -> result pyval.
Variable secure_filename : string -> string.
(** The builtin [str] on the values [format] leaves to it. *)
Variable str_ : pyval -> string.

Definition prompt (skills_text : string) : string :=
  nl ++ "        Analyze the following skills: " ++ skills_text ++ nl
  ++ "        - Give a score from 0 to 100 (higher = better fit for software engineering roles)" ++ nl
  ++ "        - Suggest the most suitable job role" ++ nl
  ++ "        Respond in JSON: {" ++ quoted "score" ++ ": number, "
  ++ quoted "best_role" ++ ": " ++ quoted "string" ++ "}" ++ nl
  ++ "        ".

Definition analyze_resume_with_ai (skills_text : string)
  : result (Z * pyval * string) :=
  try_except
    (rbind (generate_content (prompt skills_text)) (fun content =>
     rbind
       (try_except
          (rbind (json_loads content) (fun parsed =>
           rbind (get parsed "score" (PyInt 50)) (fun v =>
           rbind (Py.int v) (fun score =>
           rbind (get parsed "best_role" (PyStr "Generalist")) (fun best_role =>
           Ok (score, best_role))))))
          is_JSONDecodeError
          (fun _ => Ok (50, PyStr "Unknown")))
       (fun '(score, best_role) => Ok (score, best_role, content))))
    (fun _ => true)
    (fun e => Ok (0, PyStr "AI Processing Failed", "AI Error: " ++ exn_str e)).

Definition home : M response :=
  ret (render_template "home.html" []).

Definition signup (req : request) : M response :=
  match method req with
  | POST =>
      let email := strip (form_get req "email" "") in
      let password := strip (form_get req "password" "") in
      if negb (truthy email) || negb (truthy password) then
        flash "Provide email and password" "danger";;
        ret (redirect "signup")
      else
        rows <- read_dicts USERS_CSV;;
        if existsb (fun row => field_is row "Email" email) rows then
          flash "Account already exists. Please login." "warning";;
          ret (redirect "login")
        else
          append_row USERS_CSV [email; password; "0"];;
          flash "Account created. Please login." "success";;
          ret (redirect "login")
  | GET => ret (render_template "signup.html" [])
  end.

Definition login (req : request) : M response :=
  match method req with
  | POST =>
      let email := strip (form_get req "email" "") in
      let password := strip (form_get req "password" "") in
      rows <- read_dicts USERS_CSV;;
      match find (fun row => field_is row "Email" email
                             && field_is row "Password" password) rows with
      | Some row =>
          let is_admin := field_is row "IsAdmin" "1" in
          put_session (mkSession (Some email) (Some is_admin));;
          flash "Logged in successfully" "success";;
          if is_admin then ret (redirect "admin_dashboard")
          else ret (redirect "upload")
      | None =>
          flash "Invalid credentials" "danger";;
          ret (render_template "login.html" [])
      end
  | GET => ret (render_template "login.html" [])
  end.

Definition logout : M response :=
  clear_session;;
  flash "Logged out successfully" "info";;
  ret (redirect "login").

(** Lines 156 to 164: the name the upload is stored under. The loop is run
    for two tests more than there are stored files, which is enough for it
    to end ([storage_name_total]). *)
Definition storage_name (raw_filename : string) (w : world) : option string :=
  let filename := secure_filename raw_filename in
  let '(base, ext) := splitext filename in
  free_name (S (S (List.length (resumes w))))
            (fun f => save_path_exists f w) base ext filename 1.

Definition upload (req : request) : M response :=
  s <- get_session;;
  match user s with
  | None =>
      flash "Please login to upload resume" "warning";;
      ret (redirect "login")
  | Some _ =>
      match method req with
      | POST =>
          let name := strip (form_get req "name" "") in
          let email := strip (form_get req "email" "") in
          let skills := strip (form_get req "skills" "") in
          match lookup "resume" (files req) with
          | Some resume =>
              if negb (truthy name && truthy email && truthy skills
                       && truthy (filename resume)) then
                flash "All fields required" "danger";;
                ret (redirect "upload")
              else if negb (allowed_file (filename resume)) then
                flash "Only PDF resumes are allowed" "danger";;
                ret (redirect "upload")
              else
                fun w =>
                  match storage_name (filename resume) w with
                  | None =>
                      (* not reached: the loop always ends *)
                      (Raise (mkExn (OtherException "NonTermination") ""), w)
                  | Some filename =>
                      (save filename (stream resume);;
                       match analyze_resume_with_ai skills with
                       | Ok (score, best_role, raw_feedback) =>
                           append_row SUBMISSIONS_CSV
                             [name; email; skills; filename; str_of_int score;
                              csv_field str_ best_role; raw_feedback];;
                           flash ("Resume uploaded! AI Score: " ++ str_of_int score
                                  ++ ", Suggested Role: " ++ format str_ best_role)
                                 "success";;
                           ret (redirect "upload")
                       | Raise e => lift (Raise e)
                       end) w
                  end
          | None =>
              flash "All fields required" "danger";;
              ret (redirect "upload")
          end
      | GET => ret (render_template "upload.html" [])
      end
  end.

(** Lines 186 to 191: every record of the submissions file, in file order;
    none when the file does not exist. *)
Definition load_all : M (list Csv.record) :=
  present <- path_exists SUBMISSIONS_CSV;;
  if present then read_dicts SUBMISSIONS_CSV else ret [].

(** Lines 186 to 192: the records, sorted by score. *)
Definition rank : M (list Csv.record) :=
  rows <- load_all;;
  lift (sort_by_key_desc score_key rows).

Definition admin_dashboard : M response :=
  s <- get_session;;
  match is_admin s with
  | Some true =>
      rows <- rank;;
      ret (render_template "admin.html" rows)
  | _ =>
      flash "Admin access required" "danger";;
      ret (redirect "login")
  end.

End App.

(** ** Reachable states

    One request at a time, from the state the start-up code leaves on a
    first deployment; the collaborators may answer differently at each
    upload. The two routes that only read, [home] and the one that serves a
    stored file, are no steps. *)

Inductive step : world -> world -> Prop :=
| step_signup req w : step w (snd (signup req w))
| step_login req w : step w (snd (login req w))
| step_logout w : step w (snd (logout w))
| step_upload generate_content json_loads secure_filename str_ req w :
    step w (snd (upload generate_content json_loads secure_filename str_ req w))
| step_admin w : step w (snd (admin_dashboard w)).

Inductive reachable : world -> Prop :=
| reach_start : reachable (startup fresh)
| reach_step w w' : reachable w -> step w w' -> reachable w'.

(** The rows the handlers write. *)
Definition account_row (r : Csv.row) : Prop :=
  exists email password, r = [email; password; "0"].

Definition submission_row (r : Csv.row) : Prop :=
  exists name email skills filename score best_role raw_feedback,
    r = [name; email; skills; filename; str_of_int score; best_role; raw_feedback].

(** The two CSV files as the start-up code and the handlers leave them: the
    header, the seeded administrator, and the rows written since. *)
Definition stores_inv (w : world) : Prop :=
  (exists rows,
      users_csv w = Some (users_header :: admin_row :: rows)
      /\ Forall account_row rows)
  /\ (exists rows,
         submissions_csv w = Some (submissions_header :: rows)
         /\ Forall submission_row rows).



(** ** Reference collaborators *)

Module Ref.

(** A model that answers every prompt with [reply]. *)
Definition replies (reply : string) (prompt : string) : result string :=
  Ok reply.


(** [str(v)] and [repr(v)] for decoded values; floats are left out (their
    shortest decimal form is not modelled) and print as [float]. *)
Fixpoint py_repr (v : pyval) : string :=
  match v with
  | PyNone => "None"
  | PyBool true => "True"
  | PyBool false => "False"
  | PyInt n => str_of_int n
  | PyFloat _ => "float"
  | PyStr s => repr s
  | PyList l => "[" ++ Werkzeug.join ", " (map py_repr l) ++ "]"
  | PyDict d =>
      "{" ++ Werkzeug.join ", "
               (map (fun kv => repr (fst kv) ++ ": " ++ py_repr (snd kv)) d)
          ++ "}"
  end.

Definition py_str (v : pyval) : string :=
  match v with
  | PyStr s => s
  | _ => py_repr v
  end.

End Ref.

(** ** Requests and states used in the examples *)

(** The reply [{"score": <score>, "best_role": "Backend Engineer"}]. *)
Definition reply (score : string) : string :=
  "{" ++ quoted "score" ++ ": " ++ score ++ ", " ++ quoted "best_role" ++ ": "
      ++ quoted "Backend Engineer" ++ "}".

Definition scored_reply : string := reply "82".



Definition credentials (email password : string) : request :=
  mkRequest POST [("email", email); ("password", password)] [].

Definition upload_request (name file : string) : request :=
  mkRequest POST
    [("name", name); ("email", "a@a.com"); ("skills", "Python, SQL")]
    [("resume", mkFile file "%PDF-1.4")].

(** One upload, answered by the model with [reply_text]. *)
Definition upload_with (reply_text : string) (req : request) (w : world) : world :=
  snd (upload (Ref.replies reply_text) Json.loads Werkzeug.secure_filename
              Ref.py_str req w).

(** An applicant signs up, logs in and uploads four times; the model gives
    the scores 10, 90, 90 and 5. *)
Definition w_start : world := startup fresh.
Definition w_signed_up : world := snd (signup (credentials "a@a.com" "secret") w_start).
Definition w_logged_in : world := snd (login (credentials "a@a.com" "secret") w_signed_up).
Definition w_ann : world :=
  upload_with (reply "10") (upload_request "Ann" "resume.pdf") w_logged_in.
Definition w_bob : world :=
  upload_with (reply "90") (upload_request "Bob" "resume.pdf") w_ann.
Definition w_cy : world :=
  upload_with (reply "90") (upload_request "Cy" "cv.pdf") w_bob.
Definition w_dee : world :=
  upload_with (reply "5") (upload_request "Dee" "cv.PDF") w_cy.





(** ** Text extraction (lines 39 to 49)

    No handler calls it. PyPDF2 is outside the repository: importing it,
    opening the file, building the reader with its pages and extracting the
    text of a page are parameters, each of which may raise. *)

Section Extract.

Variable page : Type.
(** [import PyPDF2]. *)
Variable import_PyPDF2 : result unit.
(** [open(filepath, "rb")]: the bytes of the file, or the error of [open]. *)
Variable open_rb : string -> result string.
(** [PyPDF2.PdfReader(f).pages]. *)
Variable PdfReader : string -> result (list page).
(** [page.extract_text()]: a text, or [None]. *)
Variable extract_text : page -> result (option string).

(** [x or ""]. *)
Definition or_empty (x : option string) : string :=
  match x with Some t => t | None => EmptyString end.

(** The [for page in reader.pages] loop, from the text read so far. *)
Fixpoint pages_text (text : string) (pages : list page) : result string :=
  match pages with
  | [] => Ok text
  | p :: ps =>
      rbind (extract_text p) (fun t => pages_text (text ++ or_empty t) ps)
  end.

Definition extract_text_from_pdf (filepath : string) : result string :=
  try_except
    (rbind import_PyPDF2 (fun _ =>
     rbind (open_rb filepath) (fun f =>
     rbind (PdfReader f) (fun pages =>
     rbind (pages_text EmptyString pages) (fun text =>
     Ok (strip text))))))
    (fun _ => true)
    (fun e => Ok ("Error extracting text: " ++ exn_str e)).

End Extract.

(** ** Histories and further invariants *)

(** The rows of a file, none when it does not exist. *)
Definition rows_of (f : option Csv.table) : Csv.table :=
  match f with Some t => t | None => [] end.

(** Any number of requests, one after the other. *)
Inductive reaches : world -> world -> Prop :=
| reaches_refl w : reaches w w
| reaches_step w w' w'' : reaches w w' -> step w' w'' -> reaches w w''.

(** A row as [signup] writes it: both fields are trimmed and not empty. *)
Definition trimmed_account (r : Csv.row) : Prop :=
  exists email password,
    r = [email; password; "0"]
    /\ truthy email = true /\ truthy password = true
    /\ strip email = email /\ strip password = password.

(** The first field of a row of the users file. *)
Definition identifier (r : Csv.row) : string := hd EmptyString r.



(** Collaborators of the extraction used in the examples: each word of
    the file is the text of one page. *)
Definition lines_reader (f : string) : result (list string) :=
  Ok (Werkzeug.split_ws [] f).

Definition page_text (p : string) : result (option string) := Ok (Some p).


(** * Properties *)

(** ** The runtime model on known values *)

Example splitext_values :
  map splitext ["resume.pdf"; "a/b.c/.bashrc"; "x..PDF"; "..pdf"; "a.tar.gz"; "a/.b.pdf"]
  = [("resume", ".pdf"); ("a/b.c/.bashrc", ""); ("x.", ".PDF"); ("..pdf", "");
     ("a.tar", ".gz"); ("a/.b", ".pdf")].
Proof. reflexivity. Qed.

Example allowed_file_values :
  map allowed_file ["resume.pdf"; "Resume.PDF"; "resume.pdf.exe"; ".pdf"; "resume"; ""]
  = [true; true; false; false; false; false].
Proof. reflexivity. Qed.

Example int_of_str_values :
  map int_of_str [" 82 "; "-5"; "+1_000"; "007"] = [Ok 82; Ok (-5); Ok 1000; Ok 7]
  /\ map (fun s => match int_of_str s with Ok _ => true | Raise _ => false end)
         ["abc"; ""; "1__0"; "_1"; "1_"; "8 2"; "82.5"; "- 1"]
     = [false; false; false; false; false; false; false; false].
Proof. split; reflexivity. Qed.

Example secure_filename_values :
  map Werkzeug.secure_filename
      ["resume.pdf"; "../../etc/passwd.pdf"; "My cool  resume.PDF"; "_.pdf"; "a b/c?.pdf"]
  = ["resume.pdf"; "etc_passwd.pdf"; "My_cool_resume.PDF"; "pdf"; "a_b_c.pdf"].
Proof. reflexivity. Qed.

Example loads_values :
  Json.loads scored_reply
  = Ok (PyDict [("score", PyInt 82); ("best_role", PyStr "Backend Engineer")])
  /\ Json.loads " [1, 2.5, -0, true, null] "
     = Ok (PyList [PyInt 1; PyFloat (S754_finite false 5629499534213120 (-51));
                   PyInt 0; PyBool true; PyNone])
  /\ Json.loads "0.1" = Ok (PyFloat (S754_finite false 7205759403792794 (-56)))
  /\ Json.loads "1e400" = Ok (PyFloat (S754_infinity false))
  /\ map (fun s => is_JSONDecodeError
                     match Json.loads s with Ok _ => mkExn ValueError "" | Raise e => e end)
         ["Looks solid."; ""; "[1,]"; "{1: 2}"; "01"; "1."; "nul"; "{} {}"]
     = [true; true; true; true; true; true; true; true].
Proof. repeat split; vm_compute; reflexivity. Qed.

(** [int] of the scores a model may give in an object. *)
Example score_conversions :
  map (fun text =>
         match Json.loads text with
         | Ok v => rbind (get v "score" (PyInt 50)) Py.int
         | Raise e => Raise e
         end)
      ["{" ++ quoted "score" ++ ": 82.9}"; "{" ++ quoted "score" ++ ": -0.5}";
       "{" ++ quoted "score" ++ ": 1e2}"; "{" ++ quoted "score" ++ ": true}";
       "{" ++ quoted "score" ++ ": " ++ quoted " 77 " ++ "}"; "{}"]
  = [Ok 82; Ok 0; Ok 100; Ok 1; Ok 77; Ok 50].
Proof. vm_compute. reflexivity. Qed.

Example universal_newlines_values :
  Csv.universal_newlines ("a" ++ String "013" (String "010" "b") ++ String "013" "c")
  = "a" ++ nl ++ "b" ++ nl ++ "c".
Proof. reflexivity. Qed.

(** ** The scoring adapter *)

Section Adapter.

Variable generate_content : string -> result string.
Variable json_loads : string -> result pyval.


(** The decoder rejected the text: the inner handler answers. *)
Lemma analyze_decode_error skills content e :
  generate_content (prompt skills) = Ok content ->
  json_loads content = Raise e ->
  is_JSONDecodeError e = true ->
  analyze_resume_with_ai generate_content json_loads skills = Ok (50, PyStr "Unknown", content).
Proof.
  intros Hgen Hloads Hcls. unfold analyze_resume_with_ai.
  rewrite Hgen. cbn [rbind]. rewrite Hloads. cbn [rbind try_except].
  rewrite Hcls. reflexivity.
Qed.


(** Anything that is raised between the decoder's call and the end of the
    inner block and is not a [JSONDecodeError] reaches the outer handler. *)
Lemma analyze_inner_exception skills content e :
  generate_content (prompt skills) = Ok content ->
  rbind (json_loads content) (fun parsed =>
  rbind (get parsed "score" (PyInt 50)) (fun v =>
  rbind (Py.int v) (fun score =>
  rbind (get parsed "best_role" (PyStr "Generalist")) (fun best_role =>
  Ok (score, best_role))))) = Raise e ->
  is_JSONDecodeError e = false ->
  analyze_resume_with_ai generate_content json_loads skills
  = Ok (0, PyStr "AI Processing Failed", "AI Error: " ++ exn_str e).
Proof.
  intros Hgen Hbody Hcls. unfold analyze_resume_with_ai.
  rewrite Hgen. cbn [rbind]. rewrite Hbody. cbn [rbind try_except].
  rewrite Hcls. reflexivity.
Qed.

Lemma analyze_total skills :
  exists score best_role raw, analyze_resume_with_ai generate_content json_loads skills = Ok (score, best_role, raw).
Proof.
  unfold analyze_resume_with_ai.
  destruct (generate_content (prompt skills)) as [content|e]; cbn [rbind try_except].
  2: { eauto. }
  destruct (rbind (json_loads content) _) as [[score best_role]|e];
    cbn [rbind try_except].
  - eauto.
  - destruct (is_JSONDecodeError e); cbn [rbind try_except]; eauto.
Qed.


End Adapter.



(** C1, as the code has it. When the decoder rejects the response text with
    a JSONDecodeError, the adapter returns 50, "Unknown" and the response
    text itself, so the raw response is empty exactly when the model's text
    is. *)
Theorem score_on_decode_error :
  forall generate_content json_loads skills content e,
    generate_content (prompt skills) = Ok content ->
    json_loads content = Raise e ->
    is_JSONDecodeError e = true ->
    analyze_resume_with_ai generate_content json_loads skills
    = Ok (50, PyStr "Unknown", content).
Proof.
  intros gen loads skills content e Hgen Hloads Hcls.
  now apply analyze_decode_error with (e := e).
Qed.

Lemma score_on_decode_error_witness :
  analyze_resume_with_ai (Ref.replies "Looks solid.") Json.loads "x"
  = Ok (50, PyStr "Unknown", "Looks solid.").
Proof.
  apply (score_on_decode_error (Ref.replies "Looks solid.") Json.loads "x"
           "Looks solid." (mkExn JSONDecodeError "Expecting value"));
    reflexivity.
Defined.

(** C1, as stated, fails twice. The text [[1, 2]] is valid JSON but no
    object: the missing [get] method raises AttributeError, which the inner
    handler does not catch, and the result is the one of a failed model call.
    The empty text is rejected by the decoder, and the raw response returned
    with 50 and "Unknown" is empty. *)
Lemma score_on_non_object_counterexample :
  Json.loads "[1, 2]" = Ok (PyList [PyInt 1; PyInt 2])
  /\ analyze_resume_with_ai (Ref.replies "[1, 2]") Json.loads "x"
     = Ok (0, PyStr "AI Processing Failed",
           "AI Error: 'list' object has no attribute 'get'")
  /\ analyze_resume_with_ai (Ref.replies "") Json.loads "x"
     = Ok (50, PyStr "Unknown", "").
Proof. repeat split; vm_compute; reflexivity. Qed.




(** Both defaults, on the empty object. *)
Example score_defaults :
  analyze_resume_with_ai (Ref.replies "{}") Json.loads "x"
  = Ok (50, PyStr "Generalist", "{}").
Proof. vm_compute. reflexivity. Qed.

(** ** [int] reads back what [str] writes *)

Lemma digits_val_acc d p :
  digits_val (Z.pos p) true (NilEmpty.string_of_uint d)
  = Some (Z.pos (Pos.of_uint_acc d p)).
Proof.
  revert p. induction d; intros p; cbn [NilEmpty.string_of_uint Pos.of_uint_acc];
    [reflexivity | ..];
    cbn [digits_val]; rewrite <- IHd;
    (match goal with |- context [is_digit ?c] => change (is_digit c) with true end);
    cbv iota; f_equal;
    (match goal with
     | |- context [digit_val ?c] =>
         let v := eval vm_compute in (digit_val c) in change (digit_val c) with v
     end);
    lia.
Qed.

Lemma digits_val_uint d :
  digits_val 0 true (NilEmpty.string_of_uint d) = Some (Z.of_N (Pos.of_uint d)).
Proof.
  induction d; cbn [NilEmpty.string_of_uint Pos.of_uint]; [reflexivity | ..];
    cbn [digits_val];
    (match goal with |- context [is_digit ?c] => change (is_digit c) with true end);
    cbv iota;
    [exact IHd | ..];
    (match goal with
     | |- digits_val ?a true _ = Some (Z.of_N (N.pos (Pos.of_uint_acc _ ?k))) =>
         change a with (Z.pos k)
     end);
    apply digits_val_acc.
Qed.

Lemma digits_val_uint_first d :
  d <> Decimal.Nil ->
  digits_val 0 false (NilEmpty.string_of_uint d) = Some (Z.of_N (Pos.of_uint d)).
Proof.
  intros Hd. rewrite <- digits_val_uint.
  destruct d; [congruence | ..]; reflexivity.
Qed.

Lemma rstrip_uint d :
  rstrip (NilEmpty.string_of_uint d) = NilEmpty.string_of_uint d.
Proof.
  induction d; cbn [NilEmpty.string_of_uint rstrip]; [reflexivity | ..];
    rewrite IHd; destruct (NilEmpty.string_of_uint d); reflexivity.
Qed.

Lemma strip_uint d :
  strip (NilEmpty.string_of_uint d) = NilEmpty.string_of_uint d.
Proof.
  unfold strip. rewrite rstrip_uint. destruct d; reflexivity.
Qed.

Lemma string_of_pos p :
  NilZero.string_of_uint (Pos.to_uint p) = NilEmpty.string_of_uint (Pos.to_uint p).
Proof.
  pose proof (DecimalPos.Unsigned.to_uint_nonnil p) as Hnil.
  destruct (Pos.to_uint p); [congruence | ..]; reflexivity.
Qed.

Lemma int_of_str_pos p :
  int_of_str (NilEmpty.string_of_uint (Pos.to_uint p)) = Ok (Z.pos p).
Proof.
  pose proof (DecimalPos.Unsigned.to_uint_nonnil p) as Hnil.
  pose proof (DecimalPos.Unsigned.of_to p) as Hval.
  pose proof (digits_val_uint_first _ Hnil) as Hdigits.
  unfold int_of_str. rewrite strip_uint.
  destruct (Pos.to_uint p); [congruence | ..];
    cbn [NilEmpty.string_of_uint] in *; rewrite Hdigits, Hval; reflexivity.
Qed.

Lemma int_of_str_neg p :
  int_of_str (String "-" (NilEmpty.string_of_uint (Pos.to_uint p))) = Ok (Z.neg p).
Proof.
  pose proof (DecimalPos.Unsigned.to_uint_nonnil p) as Hnil.
  pose proof (DecimalPos.Unsigned.of_to p) as Hval.
  pose proof (digits_val_uint_first _ Hnil) as Hdigits.
  unfold int_of_str.
  replace (strip (String "-" (NilEmpty.string_of_uint (Pos.to_uint p))))
    with (String "-" (NilEmpty.string_of_uint (Pos.to_uint p))).
  - rewrite Hdigits, Hval. reflexivity.
  - unfold strip. cbn [rstrip]. rewrite rstrip_uint.
    destruct (NilEmpty.string_of_uint (Pos.to_uint p)); reflexivity.
Qed.

(** [int(str(n)) == n]. *)
Lemma int_of_str_of_int n : int_of_str (str_of_int n) = Ok n.
Proof.
  unfold str_of_int. destruct n as [|p|p]; cbn [Z.to_int NilZero.string_of_int].
  - reflexivity.
  - rewrite string_of_pos. apply int_of_str_pos.
  - rewrite string_of_pos. apply int_of_str_neg.
Qed.

Lemma str_of_int_inj n m : str_of_int n = str_of_int m -> n = m.
Proof.
  intros H. apply (f_equal int_of_str) in H.
  rewrite !int_of_str_of_int in H. congruence.
Qed.

(** ** The sort of the ranking view *)

Section Sorting.

Context {A : Type}.
Variable key : A -> result Z.
















End Sorting.

(** ** Storage names *)

Lemma append_inv_head a x y : a ++ x = a ++ y -> x = y.
Proof.
  induction a as [|c a IH]; cbn [append]; [auto|]. intros [= H]. auto.
Qed.

Lemma list_ascii_of_append a b :
  list_ascii_of_string (a ++ b)
  = (list_ascii_of_string a ++ list_ascii_of_string b)%list.
Proof.
  induction a as [|c a IH]; cbn; [reflexivity|]. now rewrite IH.
Qed.

Lemma append_inv_tail x y b : x ++ b = y ++ b -> x = y.
Proof.
  intros H. apply (f_equal list_ascii_of_string) in H.
  rewrite !list_ascii_of_append in H. apply app_inv_tail in H.
  apply (f_equal string_of_list_ascii) in H.
  now rewrite !string_of_list_ascii_of_string in H.
Qed.

Lemma candidate_inj base ext j k :
  candidate base ext j = candidate base ext k -> j = k.
Proof.
  unfold candidate. intros H.
  apply append_inv_head in H. apply (append_inv_head "_") in H.
  apply append_inv_tail in H. now apply str_of_int_inj.
Qed.

Lemma candidate_truthy base ext k : truthy (candidate base ext k) = true.
Proof. unfold candidate. destruct base; reflexivity. Qed.

Section FreeName.

Variable exists_ : string -> bool.
Variables base ext : string.

(** The loop stops on a free name: the first one of the sequence. *)
Lemma free_name_some fuel filename c name :
  free_name fuel exists_ base ext filename c = Some name ->
  exists_ name = false
  /\ (name = filename
      \/ exists_ filename = true
         /\ exists k, c <= k /\ name = candidate base ext k
                      /\ forall j, c <= j < k -> exists_ (candidate base ext j) = true).
Proof.
  revert filename c. induction fuel as [|fuel IH]; intros filename c; cbn [free_name].
  - discriminate.
  - destruct (exists_ filename) eqn:Hex.
    + intros H. destruct (IH _ _ H) as [Hfree [->|(Hc & k & Hk & -> & Hbelow)]].
      * split; [exact Hfree|]. right. split; [reflexivity|].
        exists c. repeat split; [lia | intros; lia].
      * split; [exact Hfree|]. right. split; [reflexivity|].
        exists k. repeat split; [lia|].
        intros j Hj. destruct (Z.eq_dec j c) as [->|]; [exact Hc|].
        apply Hbelow. lia.
    + intros [= <-]. auto.
Qed.

(** It runs out of tests only on names that all exist. *)
Lemma free_name_none fuel filename c :
  free_name (S fuel) exists_ base ext filename c = None ->
  exists_ filename = true
  /\ forall j, c <= j < c + Z.of_nat fuel -> exists_ (candidate base ext j) = true.
Proof.
  revert filename c. induction fuel as [|fuel IH]; intros filename c.
  - cbn [free_name]. destruct (exists_ filename); [|discriminate].
    intros _. split; [reflexivity | intros; lia].
  - cbn [free_name]. destruct (exists_ filename) eqn:Hex; [|discriminate].
    intros H. split; [reflexivity|].
    change (free_name (S fuel) exists_ base ext (candidate base ext c) (c + 1) = None) in H.
    destruct (IH _ _ H) as [Hc Hrest].
    intros j Hj. destruct (Z.eq_dec j c) as [->|]; [exact Hc|].
    apply Hrest. lia.
Qed.

(** More tests do not change its result. *)
Lemma free_name_more fuel extra filename c name :
  free_name fuel exists_ base ext filename c = Some name ->
  free_name (fuel + extra) exists_ base ext filename c = Some name.
Proof.
  revert filename c. induction fuel as [|fuel IH]; intros filename c; cbn [free_name Nat.add].
  - discriminate.
  - destruct (exists_ filename); [apply IH | auto].
Qed.

End FreeName.

Lemma stored_in f w : stored f w = true -> In f (map fst (resumes w)).
Proof.
  unfold stored. rewrite existsb_exists. intros [[n b] [Hin Heq]].
  apply String.eqb_eq in Heq. cbn in Heq. subst. now apply (in_map fst) in Hin.
Qed.

Lemma save_path_exists_candidate base ext k w :
  save_path_exists (candidate base ext k) w = true ->
  In (candidate base ext k) (map fst (resumes w)).
Proof.
  unfold save_path_exists. rewrite candidate_truthy. cbn [negb orb].
  apply stored_in.
Qed.

(** The loop of [upload] ends: among as many candidates as there are stored
    files, plus one, some name is free. *)
Lemma free_name_total w base ext filename :
  exists name,
    free_name (S (S (List.length (resumes w)))) (fun f => save_path_exists f w)
              base ext filename 1 = Some name.
Proof.
  destruct (free_name _ _ base ext filename 1) as [name|] eqn:Hloop; [eauto|].
  exfalso. apply free_name_none in Hloop. destruct Hloop as [_ Hall].
  set (n := S (List.length (resumes w))) in *.
  set (cands := map (fun i => candidate base ext (1 + Z.of_nat i)) (seq 0 n)).
  assert (Hnodup : NoDup cands).
  { apply Injective_map_NoDup; [|apply seq_NoDup].
    intros i j Hij. apply candidate_inj in Hij. lia. }
  assert (Hincl : incl cands (map fst (resumes w))).
  { intros c Hc. apply in_map_iff in Hc. destruct Hc as (i & <- & Hi).
    apply in_seq in Hi. apply save_path_exists_candidate, Hall. lia. }
  pose proof (NoDup_incl_length Hnodup Hincl) as Hlen.
  unfold cands in Hlen. rewrite length_map, length_seq, length_map in Hlen.
  unfold n in Hlen. lia.
Qed.

Lemma storage_name_total secure_filename raw_filename w :
  exists name, storage_name secure_filename raw_filename w = Some name.
Proof.
  unfold storage_name. destruct (splitext _) as [base ext].
  apply free_name_total.
Qed.

Lemma storage_name_spec secure_filename raw_filename w name :
  storage_name secure_filename raw_filename w = Some name ->
  let filename := secure_filename raw_filename in
  let base := fst (splitext filename) in
  let ext := snd (splitext filename) in
  save_path_exists name w = false
  /\ (name = filename
      \/ save_path_exists filename w = true
         /\ exists k, 1 <= k /\ name = candidate base ext k
                      /\ forall j, 1 <= j < k ->
                                   save_path_exists (candidate base ext j) w = true).
Proof.
  unfold storage_name. destruct (splitext _) as [base ext]. cbn [fst snd].
  intros H. apply free_name_some in H. exact H.
Qed.

Lemma not_stored_filter name w :
  stored name w = false ->
  filter (fun f => negb (String.eqb (fst f) name)) (resumes w) = resumes w.
Proof.
  unfold stored. induction (resumes w) as [|f l IH]; cbn [existsb filter]; [reflexivity|].
  intros H. apply orb_false_elim in H. destruct H as [Hf Hl].
  rewrite Hf. cbn [negb]. now rewrite IH.
Qed.

(** ** Reading the ledger *)

(** Opens the state and runs the monad's operations on it. *)
Ltac run_handler w :=
  destruct w as [users subs files_ s fl op];
  unfold bind, ret, lift, flash, get_session, put_session, clear_session, read_dicts,
    append_row, save, path_exists, log_open, set_users, set_submissions,
    set_resumes, set_sess, csv_file in *;
  cbn [fst snd users_csv submissions_csv resumes sess flashes opened] in *.

Lemma load_all_absent w :
  submissions_csv w = None -> load_all w = (Ok [], w).
Proof. intros H. unfold load_all. run_handler w. now subst. Qed.

Lemma load_all_present w t :
  submissions_csv w = Some t ->
  load_all w = (Ok (Csv.read_file t), log_open SUBMISSIONS_CSV mode_r w).
Proof. intros H. unfold load_all. run_handler w. now subst. Qed.

(** Reading changes no file and no session. *)
Lemma load_all_pure w :
  let w' := snd (load_all w) in
  users_csv w' = users_csv w /\ submissions_csv w' = submissions_csv w
  /\ resumes w' = resumes w /\ sess w' = sess w /\ flashes w' = flashes w.
Proof.
  destruct (submissions_csv w) as [t|] eqn:H.
  - rewrite (load_all_present _ _ H). now cbn.
  - rewrite (load_all_absent _ H). now cbn.
Qed.











(** ** What each handler does to the stores *)

Lemma signup_stores req w :
  let w' := snd (signup req w) in
  submissions_csv w' = submissions_csv w /\ resumes w' = resumes w
  /\ sess w' = sess w
  /\ (users_csv w' = users_csv w
      \/ exists t r, account_row r /\ users_csv w = Some t
                     /\ users_csv w' = Some (t ++ [r])%list).
Proof.
  unfold signup. destruct (method req); run_handler w; [now auto|].
  destruct (negb _ || negb _); cbn; [now auto|].
  destruct users as [t|]; cbn; [|now auto].
  destruct (existsb _ _); cbn; [now auto|].
  repeat split. right. exists t. eexists. repeat split. unfold account_row. eauto.
Qed.

Lemma login_stores req w :
  let w' := snd (login req w) in
  users_csv w' = users_csv w /\ submissions_csv w' = submissions_csv w
  /\ resumes w' = resumes w.
Proof.
  unfold login. destruct (method req); run_handler w; [now auto|].
  destruct users as [t|]; cbn; [|now auto].
  destruct (find _ _) as [row|]; cbn; [|now auto].
  destruct (field_is row "IsAdmin" "1"); cbn; auto.
Qed.

Lemma logout_stores w :
  let w' := snd (logout w) in
  users_csv w' = users_csv w /\ submissions_csv w' = submissions_csv w
  /\ resumes w' = resumes w.
Proof. unfold logout. run_handler w. auto. Qed.

Lemma rank_pure w :
  let w' := snd (rank w) in
  users_csv w' = users_csv w /\ submissions_csv w' = submissions_csv w
  /\ resumes w' = resumes w /\ sess w' = sess w /\ flashes w' = flashes w.
Proof.
  pose proof (load_all_pure w) as H. unfold rank, bind, lift.
  destruct (load_all w) as [[rows|e] w']; cbn [snd] in *; exact H.
Qed.

Lemma admin_dashboard_stores w :
  let w' := snd (admin_dashboard w) in
  users_csv w' = users_csv w /\ submissions_csv w' = submissions_csv w
  /\ resumes w' = resumes w /\ sess w' = sess w.
Proof.
  pose proof (rank_pure w) as H. unfold admin_dashboard, bind, get_session.
  destruct (is_admin (sess w)) as [[|]|].
  - destruct (rank w) as [[rows|e] w']; cbn [snd] in *; unfold ret; cbn; tauto.
  - run_handler w. auto.
  - run_handler w. auto.
Qed.

Section Upload.

Variable generate_content : string -> result string.
Variable json_loads : string -> result pyval.
Variable secure_filename : string -> string.
Variable str_ : pyval -> string.

(** An upload that passes every check: the file is stored under the name
    the loop found, and one row is added to the ledger. *)
Lemma upload_accepted req w u resume :
  user (sess w) = Some u ->
  method req = POST ->
  lookup "resume" (files req) = Some resume ->
  truthy (strip (form_get req "name" "")) = true ->
  truthy (strip (form_get req "email" "")) = true ->
  truthy (strip (form_get req "skills" "")) = true ->
  truthy (filename resume) = true ->
  allowed_file (filename resume) = true ->
  exists name score best_role raw,
    storage_name secure_filename (filename resume) w = Some name
    /\ analyze_resume_with_ai generate_content json_loads
         (strip (form_get req "skills" "")) = Ok (score, best_role, raw)
    /\ upload generate_content json_loads secure_filename str_ req w
       = (Ok (redirect "upload"),
          mkWorld
            (users_csv w)
            (Some (match submissions_csv w with Some t => t | None => [] end
                   ++ [[strip (form_get req "name" "");
                        strip (form_get req "email" "");
                        strip (form_get req "skills" "");
                        name; str_of_int score; csv_field str_ best_role; raw]])%list)
            (resumes w ++ [(name, stream resume)])%list
            (sess w)
            (flashes w
             ++ [(("Resume uploaded! AI Score: " ++ str_of_int score
                   ++ ", Suggested Role: " ++ format str_ best_role)%string,
                  "success")])%list
            (opened w ++ [(RESUMES_FOLDER name, mode_wb); (SUBMISSIONS_CSV, mode_a)])%list).
Proof.
  intros Hu Hm Hr Hn He Hs Hf Ha.
  destruct (storage_name_total secure_filename (filename resume) w) as [name Hname].
  destruct (analyze_total generate_content json_loads (strip (form_get req "skills" "")))
    as (score & best_role & raw & Han).
  exists name, score, best_role, raw. repeat split; [exact Hname | exact Han |].
  pose proof (storage_name_spec _ _ _ _ Hname) as [Hfree _].
  unfold save_path_exists in Hfree. apply orb_false_elim in Hfree.
  destruct Hfree as [_ Hfree]. apply not_stored_filter in Hfree.
  unfold upload. unfold bind at 1. unfold get_session. rewrite Hu, Hm, Hr.
  rewrite Hn, He, Hs, Hf, Ha. cbn [andb negb]. rewrite Hname, Han.
  run_handler w. rewrite Hfree, <- app_assoc. reflexivity.
Qed.

(** Every other upload request changes no file: it only flashes a message
    or renders the form. *)
Lemma upload_refused req w :
  user (sess w) = None
  \/ method req = GET
  \/ lookup "resume" (files req) = None
  \/ (exists resume,
         lookup "resume" (files req) = Some resume
         /\ (truthy (strip (form_get req "name" "")) = false
             \/ truthy (strip (form_get req "email" "")) = false
             \/ truthy (strip (form_get req "skills" "")) = false
             \/ truthy (filename resume) = false
             \/ allowed_file (filename resume) = false)) ->
  exists r fl,
    upload generate_content json_loads secure_filename str_ req w
    = (Ok r,
       mkWorld (users_csv w) (submissions_csv w) (resumes w) (sess w)
               (flashes w ++ fl)%list (opened w)).
Proof.
  intros H. unfold upload. unfold bind at 1. unfold get_session. cbv beta iota.
  assert (Hnil : forall r : response, exists r' fl,
               (Ok r, w) = (Ok r', mkWorld (users_csv w) (submissions_csv w)
                                     (resumes w) (sess w) (flashes w ++ fl)%list
                                     (opened w))).
  { intros r. exists r, []. rewrite app_nil_r. now destruct w. }
  destruct (user (sess w)) as [u|]; [|run_handler w; now eauto].
  destruct (method req); [apply Hnil|].
  destruct (lookup "resume" (files req)) as [resume|]; [|run_handler w; now eauto].
  destruct H as [H|[H|[H|(resume' & [= <-] & H)]]]; try discriminate.
  destruct (truthy (strip (form_get req "name" ""))); cbn [andb negb];
    [|run_handler w; now eauto].
  destruct (truthy (strip (form_get req "email" ""))); cbn [andb negb];
    [|run_handler w; now eauto].
  destruct (truthy (strip (form_get req "skills" ""))); cbn [andb negb];
    [|run_handler w; now eauto].
  destruct (truthy (filename resume)); cbn [andb negb];
    [|run_handler w; now eauto].
  destruct (allowed_file (filename resume)); cbn [andb negb];
    [|run_handler w; now eauto].
  intuition discriminate.
Qed.

Lemma upload_stores req w :
  let w' := snd (upload generate_content json_loads secure_filename str_ req w) in
  users_csv w' = users_csv w
  /\ (submissions_csv w' = submissions_csv w
      \/ exists r, submission_row r
                   /\ submissions_csv w'
                      = Some (match submissions_csv w with Some t => t | None => [] end
                              ++ [r])%list).
Proof.
  assert (Hrefused :
            (exists r fl,
                upload generate_content json_loads secure_filename str_ req w
                = (Ok r,
                   mkWorld (users_csv w) (submissions_csv w) (resumes w) (sess w)
                           (flashes w ++ fl)%list (opened w))) ->
            let w' := snd (upload generate_content json_loads secure_filename
                                  str_ req w) in
            users_csv w' = users_csv w
            /\ (submissions_csv w' = submissions_csv w
                \/ exists r, submission_row r
                             /\ submissions_csv w'
                                = Some (match submissions_csv w with
                                        | Some t => t
                                        | None => []
                                        end ++ [r])%list)).
  { intros (r & fl & ->). cbn. auto. }
  destruct (user (sess w)) as [u|] eqn:Hu;
    [|apply Hrefused, upload_refused; now auto].
  destruct (method req) eqn:Hm;
    [apply Hrefused, upload_refused; now auto|].
  destruct (lookup "resume" (files req)) as [resume|] eqn:Hr;
    [|apply Hrefused, upload_refused; now auto].
  destruct (truthy (strip (form_get req "name" ""))) eqn:Hn;
    [|apply Hrefused, upload_refused; now eauto 10].
  destruct (truthy (strip (form_get req "email" ""))) eqn:He;
    [|apply Hrefused, upload_refused; now eauto 10].
  destruct (truthy (strip (form_get req "skills" ""))) eqn:Hs;
    [|apply Hrefused, upload_refused; now eauto 10].
  destruct (truthy (filename resume)) eqn:Hf;
    [|apply Hrefused, upload_refused; now eauto 10].
  destruct (allowed_file (filename resume)) eqn:Ha;
    [|apply Hrefused, upload_refused; now eauto 10].
  destruct (upload_accepted req w u resume Hu Hm Hr Hn He Hs Hf Ha)
    as (name & score & best_role & raw & _ & _ & ->).
  cbn [snd users_csv submissions_csv]. split; [reflexivity|]. right.
  eexists. split; [|reflexivity]. unfold submission_row. eauto 10.
Qed.

End Upload.

(** ** Invariants of the reachable states *)

Lemma startup_fresh_inv : stores_inv (startup fresh).
Proof.
  split; exists []; split; (reflexivity || constructor).
Qed.

Lemma step_inv w w' : step w w' -> stores_inv w -> stores_inv w'.
Proof.
  intros Hstep [(us & Hus & Husr) (ss & Hss & Hssr)].
  destruct Hstep as [req w|req w|w|gen loads sf str_ req w|w].
  - destruct (signup_stores req w) as (Hs & _ & _ & Hu). split.
    + destruct Hu as [Hu|(t & r & Hr & Ht & Hu)].
      * exists us. now rewrite Hu.
      * exists (us ++ [r])%list. rewrite Hu. rewrite Hus in Ht. injection Ht as <-.
        split; [reflexivity|]. apply Forall_app. auto.
    + exists ss. now rewrite Hs.
  - destruct (login_stores req w) as (Hu & Hs & _). split.
    + exists us. now rewrite Hu.
    + exists ss. now rewrite Hs.
  - destruct (logout_stores w) as (Hu & Hs & _). split.
    + exists us. now rewrite Hu.
    + exists ss. now rewrite Hs.
  - destruct (upload_stores gen loads sf str_ req w) as (Hu & Hs). split.
    + exists us. now rewrite Hu.
    + destruct Hs as [Hs|(r & Hr & Hs)].
      * exists ss. now rewrite Hs.
      * exists (ss ++ [r])%list. rewrite Hs, Hss.
        split; [reflexivity|]. apply Forall_app. auto.
  - destruct (admin_dashboard_stores w) as (Hu & Hs & _). split.
    + exists us. now rewrite Hu.
    + exists ss. now rewrite Hs.
Qed.

Lemma reachable_inv w : reachable w -> stores_inv w.
Proof.
  induction 1 as [|w w' _ IH Hstep].
  - apply startup_fresh_inv.
  - eapply step_inv; eassumption.
Qed.

Example demo_ledger :
  submissions_csv w_dee
  = Some [submissions_header;
          ["Ann"; "a@a.com"; "Python, SQL"; "resume.pdf"; "10"; "Backend Engineer"; reply "10"];
          ["Bob"; "a@a.com"; "Python, SQL"; "resume_1.pdf"; "90"; "Backend Engineer"; reply "90"];
          ["Cy"; "a@a.com"; "Python, SQL"; "cv.pdf"; "90"; "Backend Engineer"; reply "90"];
          ["Dee"; "a@a.com"; "Python, SQL"; "cv.PDF"; "5"; "Backend Engineer"; reply "5"]].
Proof. vm_compute. reflexivity. Qed.

Lemma demo_reachable : reachable w_dee.
Proof.
  unfold w_dee, w_cy, w_bob, w_ann, upload_with, w_logged_in, w_signed_up, w_start.
  repeat (eapply reach_step; [|constructor]). apply reach_start.
Qed.

(** The scenario of the ranking: scores 10, 90, 90, 5 in insertion order
    come out as the first 90, the second 90, 10 and 5. *)
Example demo_rank :
  match fst (rank w_dee) with
  | Ok out => map (fun r => (Csv.get r "Name", Csv.get r "AIScore")) out
  | Raise _ => []
  end
  = [(Some (PyStr "Bob"), Some (PyStr "90")); (Some (PyStr "Cy"), Some (PyStr "90"));
     (Some (PyStr "Ann"), Some (PyStr "10")); (Some (PyStr "Dee"), Some (PyStr "5"))].
Proof. vm_compute. reflexivity. Qed.








(** ** File intake *)


Lemma allowed_file_ext name :
  allowed_file name = String.eqb (lower (snd (splitext name))) ".pdf".
Proof. unfold allowed_file, ALLOWED_EXT. cbn [existsb]. apply orb_false_r. Qed.



Example second_resume_name :
  storage_name Werkzeug.secure_filename "resume.pdf" w_ann = Some "resume_1.pdf"
  /\ map fst (resumes w_bob) = ["resume.pdf"; "resume_1.pdf"].
Proof. split; vm_compute; reflexivity. Qed.



(** ** Accounts *)

Lemma user_record e p a :
  Csv.make_record users_header [e; p; a]
  = [(Some "Email", PyStr e); (Some "Password", PyStr p); (Some "IsAdmin", PyStr a)].
Proof. reflexivity. Qed.

Lemma account_row_read r :
  account_row r -> account_row (map Csv.universal_newlines r).
Proof. intros (e & p & ->). unfold account_row. cbn. eauto. Qed.

Lemma account_rows_nonempty rows :
  Forall account_row rows -> filter Csv.nonempty rows = rows.
Proof.
  induction 1 as [|r rows (e & p & ->) _ IH]; [reflexivity|].
  cbn [filter Csv.nonempty]. now rewrite IH.
Qed.

(** The records read from the users file the application wrote. *)
Lemma users_records rows :
  Forall account_row rows ->
  Csv.read_file (users_header :: admin_row :: rows)
  = map (Csv.make_record users_header) (admin_row :: Csv.text_mode rows)
  /\ Forall account_row (Csv.text_mode rows).
Proof.
  intros Hall.
  assert (Hread : Forall account_row (Csv.text_mode rows)).
  { unfold Csv.text_mode. apply Forall_map. eapply Forall_impl; [|exact Hall].
    apply account_row_read. }
  split; [|exact Hread]. unfold Csv.read_file.
  change (Csv.text_mode (users_header :: admin_row :: rows))
    with (users_header :: admin_row :: Csv.text_mode rows).
  cbn [Csv.DictReader filter Csv.nonempty admin_row].
  now rewrite (account_rows_nonempty _ Hread).
Qed.


(** A POST with both fields: refused for an identifier that is taken, one
    row more otherwise. *)
Lemma signup_post req w t :
  method req = POST ->
  users_csv w = Some t ->
  truthy (strip (form_get req "email" "")) = true ->
  truthy (strip (form_get req "password" "")) = true ->
  signup req w
  = if existsb (fun row => field_is row "Email" (strip (form_get req "email" "")))
               (Csv.read_file t)
    then (Ok (redirect "login"),
          mkWorld (Some t) (submissions_csv w) (resumes w) (sess w)
                  (flashes w ++ [("Account already exists. Please login.", "warning")])%list
                  (opened w ++ [(USERS_CSV, mode_r)])%list)
    else (Ok (redirect "login"),
          mkWorld (Some (t ++ [[strip (form_get req "email" "");
                                strip (form_get req "password" ""); "0"]])%list)
                  (submissions_csv w) (resumes w) (sess w)
                  (flashes w ++ [("Account created. Please login.", "success")])%list
                  (opened w ++ [(USERS_CSV, mode_r); (USERS_CSV, mode_a)])%list).
Proof.
  intros Hm Ht He Hp. unfold signup. rewrite Hm, He, Hp. cbn [negb orb].
  run_handler w. subst users. cbn.
  destruct (existsb _ _); cbn; [reflexivity|]. now rewrite <- app_assoc.
Qed.

(** A POST that lacks a field changes no file. *)
Lemma signup_incomplete req w :
  method req = POST ->
  truthy (strip (form_get req "email" "")) = false
  \/ truthy (strip (form_get req "password" "")) = false ->
  signup req w
  = (Ok (redirect "signup"),
     mkWorld (users_csv w) (submissions_csv w) (resumes w) (sess w)
             (flashes w ++ [("Provide email and password", "danger")])%list
             (opened w)).
Proof.
  intros Hm H. unfold signup. rewrite Hm.
  replace (negb (truthy (strip (form_get req "email" "")))
           || negb (truthy (strip (form_get req "password" "")))) with true.
  - run_handler w. reflexivity.
  - destruct H as [-> | ->]; cbn [negb orb]; [reflexivity|].
    now rewrite orb_true_r.
Qed.




(** An identifier with a carriage return inside is written as it is and
    read back with a line feed: the scan of the second signup does not find
    it, and the file gets a second row for it. *)
Example signup_carriage_return :
  let email := "a" ++ String "013" "b" in
  users_csv (snd (signup (credentials email "x")
                         (snd (signup (credentials email "x") w_start))))
  = Some [users_header; admin_row; [email; "x"; "0"]; [email; "x"; "0"]].
Proof. vm_compute. reflexivity. Qed.

(** ** The administrator gate *)







Lemma admin_dashboard_refused w :
  is_admin (sess w) <> Some true ->
  admin_dashboard w
  = (Ok (redirect "login"),
     mkWorld (users_csv w) (submissions_csv w) (resumes w) (sess w)
             (flashes w ++ [("Admin access required", "danger")])%list (opened w)).
Proof.
  intros H. unfold admin_dashboard, bind at 1, get_session. cbv beta iota.
  destruct (is_admin (sess w)) as [[|]|]; [congruence| |]; run_handler w; reflexivity.
Qed.




(** The seeded administrator logs in and is shown the ranking; the
    applicant of the examples logs in and is not. *)
Example admin_login :
  sess (snd (login (credentials "admin@admin.com" "admin123") w_dee))
  = mkSession (Some "admin@admin.com") (Some true)
  /\ sess w_logged_in = mkSession (Some "a@a.com") (Some false).
Proof. split; vm_compute; reflexivity. Qed.

(** * Further properties of the code *)

(** ** The adapter on responses it cannot use *)



(** X1. When the response text decodes to a JSON value that is no object
    (a list, a string, a number, true, false or null), the adapter returns
    the triple of a failed model call: 0, "AI Processing Failed" and the
    text of the AttributeError for the missing get method, which names the
    type of the value. *)
Theorem score_on_non_object :
  forall generate_content json_loads skills content v,
    generate_content (prompt skills) = Ok content ->
    json_loads content = Ok v ->
    (forall d, v <> PyDict d) ->
    analyze_resume_with_ai generate_content json_loads skills
    = Ok (0, PyStr "AI Processing Failed",
          "AI Error: '" ++ type_name v ++ "' object has no attribute 'get'").
Proof.
  intros gen loads skills content v Hgen Hloads Hv.
  rewrite (analyze_inner_exception gen loads skills content
             (mkExn AttributeError
                    ("'" ++ type_name v ++ "' object has no attribute 'get'")));
    [reflexivity | exact Hgen | | reflexivity].
  rewrite Hloads. cbn [rbind].
  destruct v; try reflexivity. now elim (Hv d).
Qed.

Lemma score_on_non_object_witness :
  analyze_resume_with_ai (Ref.replies "null") Json.loads "Python, SQL"
  = Ok (0, PyStr "AI Processing Failed",
        "AI Error: 'NoneType' object has no attribute 'get'").
Proof.
  apply (score_on_non_object (Ref.replies "null") Json.loads "Python, SQL"
           "null" PyNone); [reflexivity | reflexivity | discriminate].
Defined.



(** ** Text extraction *)

Lemma lstrip_idem s : lstrip (lstrip s) = lstrip s.
Proof.
  induction s as [|c s IH]; [reflexivity|]. cbn [lstrip].
  destruct (is_space c) eqn:Hc; [exact IH|]. cbn [lstrip]. now rewrite Hc.
Qed.

Lemma rstrip_tail c s : rstrip (String c s) = String c s -> rstrip s = s.
Proof.
  cbn [rstrip]. destruct s as [|d s]; [reflexivity|].
  destruct (rstrip (String d s)) as [|d' r].
  - destruct (is_space c); discriminate.
  - intros [= H1 H2]. now subst.
Qed.

Lemma rstrip_lstrip s : rstrip s = s -> rstrip (lstrip s) = lstrip s.
Proof.
  induction s as [|c s IH]; [reflexivity|]. intros H. cbn [lstrip].
  destruct (is_space c); [|exact H]. apply IH. exact (rstrip_tail _ _ H).
Qed.

Lemma rstrip_idem s : rstrip (rstrip s) = rstrip s.
Proof.
  induction s as [|c s IH]; [reflexivity|]. cbn [rstrip].
  destruct (rstrip s) as [|d r] eqn:Hr.
  - destruct (is_space c) eqn:Hc; [reflexivity|]. cbn [rstrip]. now rewrite Hc.
  - cbn [rstrip] in *. destruct (rstrip r) as [|d' r'] eqn:Hr'.
    + destruct (is_space d); [discriminate|]. now rewrite IH.
    + now rewrite IH.
Qed.

(** A stripped string has nothing left to strip. *)
Lemma strip_idem s : strip (strip s) = strip s.
Proof.
  unfold strip. rewrite (rstrip_lstrip (rstrip s)) by apply rstrip_idem.
  apply lstrip_idem.
Qed.

Lemma append_empty s : s ++ "" = s.
Proof. induction s as [|c s IH]; [reflexivity|]. cbn. now rewrite IH. Qed.



Section ExtractProperties.

Variable page : Type.
Variable import_PyPDF2 : result unit.
Variable open_rb : string -> result string.
Variable PdfReader : string -> result (list page).
Variable extract_text : page -> result (option string).


Lemma pages_text_raise text before p after texts e :
  Forall2 (fun p t => extract_text p = Ok t) before texts ->
  extract_text p = Raise e ->
  pages_text page extract_text text (before ++ p :: after) = Raise e.
Proof.
  intros H Hp. revert text. induction H as [|q t before texts Hq _ IH]; intros text.
  - cbn. now rewrite Hp.
  - cbn [app pages_text]. rewrite Hq. cbn [rbind]. apply IH.
Qed.

End ExtractProperties.

(** X3. The text extraction never raises: it returns a string whatever the
    import, the opening of the file, the reader and the pages do. When one
    of them raises, the string is "Error extracting text: " followed by the
    text of the first exception raised, and the text of the pages read
    before it is dropped. *)
Theorem extract_text_never_raises :
  forall page import_PyPDF2 open_rb PdfReader extract_text filepath,
    (exists text,
        extract_text_from_pdf page import_PyPDF2 open_rb PdfReader extract_text
                              filepath = Ok text)
    /\ (forall e,
           import_PyPDF2 = Raise e
           \/ (import_PyPDF2 = Ok tt /\ open_rb filepath = Raise e)
           \/ (exists f,
                  import_PyPDF2 = Ok tt /\ open_rb filepath = Ok f
                  /\ PdfReader f = Raise e)
           \/ (exists f before p after texts,
                  import_PyPDF2 = Ok tt /\ open_rb filepath = Ok f
                  /\ PdfReader f = Ok (before ++ p :: after)%list
                  /\ Forall2 (fun p t => extract_text p = Ok t) before texts
                  /\ extract_text p = Raise e) ->
           extract_text_from_pdf page import_PyPDF2 open_rb PdfReader extract_text
                                 filepath
           = Ok ("Error extracting text: " ++ exn_str e)).
Proof.
  intros page imp open_rb reader extract filepath. split.
  - unfold extract_text_from_pdf.
    destruct (rbind imp _) as [text|e]; cbn [try_except]; eauto.
  - intros e H. unfold extract_text_from_pdf.
    destruct H as [->|[[-> ->]|[(f & -> & -> & Hr)|
                   (f & before & p & after & texts & -> & -> & Hr & Hb & Hp)]]];
      cbn [rbind try_except]; try reflexivity.
    + now rewrite Hr.
    + rewrite Hr. cbn [rbind].
      now rewrite (pages_text_raise page extract "" before p after texts e Hb Hp).
Qed.

Lemma extract_text_never_raises_witness :
  extract_text_from_pdf string (Ok tt)
    (fun _ => Raise (mkExn FileNotFoundError "[Errno 2] No such file or directory"))
    lines_reader page_text "resumes/missing.pdf"
  = Ok "Error extracting text: [Errno 2] No such file or directory".
Proof.
  apply (proj2 (extract_text_never_raises string (Ok tt)
                  (fun _ => Raise (mkExn FileNotFoundError
                                         "[Errno 2] No such file or directory"))
                  lines_reader page_text "resumes/missing.pdf")
           (mkExn FileNotFoundError "[Errno 2] No such file or directory")).
  right. left. split; reflexivity.
Defined.



(** ** Which names [allowed_file] accepts *)

Lemma take_drop n s : take n s ++ drop n s = s.
Proof.
  revert s. induction n as [|n IH]; intros [|c s]; cbn; try reflexivity.
  now rewrite IH.
Qed.

Lemma splitext_join p : fst (splitext p) ++ snd (splitext p) = p.
Proof.
  unfold splitext. destruct (rfind "." p) as [d|]; [|apply append_empty].
  destruct (_ <=? d)%nat; [|apply append_empty].
  destruct (all_dots _); [apply append_empty|]. cbn [fst snd]. apply take_drop.
Qed.

Lemma lower_length s : String.length (lower s) = String.length s.
Proof. induction s as [|c s IH]; [reflexivity|]. cbn. now rewrite IH. Qed.

(** X5. A name that [allowed_file] accepts is a root that is not empty,
    followed by an extension of four characters that reads .pdf in lower
    case. In particular the names .pdf, resume and resume.pdf.exe are
    refused. *)
Theorem allowed_file_shape :
  forall name,
    allowed_file name = true ->
    exists root ext,
      name = root ++ ext
      /\ splitext name = (root, ext)
      /\ root <> ""
      /\ lower ext = ".pdf"
      /\ String.length ext = 4%nat.
Proof.
  intros name H. rewrite allowed_file_ext in H. apply String.eqb_eq in H.
  exists (fst (splitext name)), (snd (splitext name)).
  split; [symmetry; apply splitext_join|]. split; [now destruct (splitext name)|].
  split.
  - unfold splitext in *. destruct (rfind "." name) as [d|]; [|discriminate].
    destruct (_ <=? d)%nat; [|discriminate].
    destruct (all_dots (take _ (drop _ name))) eqn:Hdots; [discriminate|].
    cbn [fst]. destruct d as [|d].
    + cbn in Hdots. discriminate.
    + destruct name as [|c name]; [|cbn; discriminate].
      cbn in Hdots. destruct (S d - 0)%nat; discriminate.
  - split; [exact H|]. rewrite <- lower_length, H. reflexivity.
Qed.

Lemma allowed_file_shape_witness :
  exists root ext,
    "Resume.final.PDF" = root ++ ext
    /\ splitext "Resume.final.PDF" = (root, ext)
    /\ root <> ""
    /\ lower ext = ".pdf"
    /\ String.length ext = 4%nat.
Proof. exact (allowed_file_shape "Resume.final.PDF" eq_refl). Defined.

Lemma rfind_append_found c root ext i :
  rfind c ext = Some i ->
  rfind c (root ++ ext) = Some (String.length root + i)%nat.
Proof.
  intros H. induction root as [|d root IH]; [exact H|].
  cbn [append rfind String.length]. now rewrite IH.
Qed.

Lemma rfind_append_none c root ext :
  contains c root = false -> rfind c ext = None -> rfind c (root ++ ext) = None.
Proof.
  intros Hroot Hext. induction root as [|d root IH]; [exact Hext|].
  cbn [append rfind contains] in *. apply orb_false_elim in Hroot.
  destruct Hroot as [Hd Hroot]. rewrite (IH Hroot). now rewrite Hd.
Qed.

Lemma take_append root ext : take (String.length root) (root ++ ext) = root.
Proof. induction root as [|c root IH]; [now destruct ext|]. cbn. now rewrite IH. Qed.

Lemma drop_append root ext : drop (String.length root) (root ++ ext) = ext.
Proof. induction root as [|c root IH]; [now destruct ext|]. exact IH. Qed.

Lemma lower_char_dot c : lower_char c = "."%char -> c = "."%char.
Proof.
  destruct c as [[] [] [] [] [] [] [] []]; intros H; try reflexivity;
    vm_compute in H; discriminate H.
Qed.

Lemma lower_char_keeps c x : lower_char x <> c -> lower_char x = x -> x <> c.
Proof. congruence. Qed.

(** The extension of a name accepted has its one dot in front and no
    slash. *)
Lemma pdf_extension ext :
  lower ext = ".pdf" -> rfind "." ext = Some 0%nat /\ rfind "/" ext = None.
Proof.
  destruct ext as [|c1 [|c2 [|c3 [|c4 [|c5 ext]]]]]; try discriminate.
  cbn [lower]. intros [= H1 H2 H3 H4]. apply lower_char_dot in H1. subst c1.
  assert (Hne : forall c x : ascii,
             lower_char c = x -> x <> "."%char -> x <> "/"%char ->
             Ascii.eqb "." c = false /\ Ascii.eqb "/" c = false).
  { intros c x Hc Hx1 Hx2. split; apply Ascii.eqb_neq; intros <-;
      vm_compute in Hc; congruence. }
  destruct (Hne c2 _ H2) as [E2 F2]; [discriminate | discriminate|].
  destruct (Hne c3 _ H3) as [E3 F3]; [discriminate | discriminate|].
  destruct (Hne c4 _ H4) as [E4 F4]; [discriminate | discriminate|].
  cbn [rfind]. rewrite E2, E3, E4, F2, F3, F4. split; reflexivity.
Qed.

(** X6. A name without a slash is accepted as soon as it is a root that
    does not consist of dots only, followed by four characters that read
    .pdf in lower case: the case of the extension does not matter, and the
    root may have dots of its own. *)
Theorem allowed_file_accepts :
  forall root ext,
    contains "/" root = false ->
    all_dots root = false ->
    lower ext = ".pdf" ->
    allowed_file (root ++ ext) = true
    /\ splitext (root ++ ext) = (root, ext).
Proof.
  intros root ext Hslash Hdots Hext.
  destruct (pdf_extension _ Hext) as [Hdot Hsep].
  assert (Hsplit : splitext (root ++ ext) = (root, ext)).
  { unfold splitext. rewrite (rfind_append_found _ root _ _ Hdot).
    rewrite (rfind_append_none _ _ _ Hslash Hsep).
    rewrite Nat.add_0_r, Nat.sub_0_r. cbn [Nat.leb drop].
    rewrite take_append, Hdots, drop_append. reflexivity. }
  split; [|exact Hsplit].
  rewrite allowed_file_ext, Hsplit. cbn [snd]. rewrite Hext. reflexivity.
Qed.

Lemma allowed_file_accepts_witness :
  allowed_file ("my.resume v2" ++ ".PdF") = true
  /\ splitext ("my.resume v2" ++ ".PdF") = ("my.resume v2", ".PdF").
Proof.
  exact (allowed_file_accepts "my.resume v2" ".PdF" eq_refl eq_refl eq_refl).
Defined.

(** ** Uploads *)

Section UploadCases.

Variable generate_content : string -> result string.
Variable json_loads : string -> result pyval.
Variable secure_filename : string -> string.
Variable str_ : pyval -> string.

(** An upload either is refused, and then only flashes, or passes every
    check, and then stores one file and appends one row. *)
Lemma upload_cases req w :
  (exists r fl,
      upload generate_content json_loads secure_filename str_ req w
      = (Ok r,
         mkWorld (users_csv w) (submissions_csv w) (resumes w) (sess w)
                 (flashes w ++ fl)%list (opened w)))
  \/ (exists name score best_role raw resume,
         lookup "resume" (files req) = Some resume
         /\ storage_name secure_filename (filename resume) w = Some name
         /\ analyze_resume_with_ai generate_content json_loads
              (strip (form_get req "skills" "")) = Ok (score, best_role, raw)
         /\ upload generate_content json_loads secure_filename str_ req w
            = (Ok (redirect "upload"),
               mkWorld
                 (users_csv w)
                 (Some (rows_of (submissions_csv w)
                        ++ [[strip (form_get req "name" "");
                             strip (form_get req "email" "");
                             strip (form_get req "skills" "");
                             name; str_of_int score; csv_field str_ best_role; raw]])%list)
                 (resumes w ++ [(name, stream resume)])%list
                 (sess w)
                 (flashes w
                  ++ [(("Resume uploaded! AI Score: " ++ str_of_int score
                        ++ ", Suggested Role: " ++ format str_ best_role)%string,
                       "success")])%list
                 (opened w ++ [(RESUMES_FOLDER name, mode_wb);
                               (SUBMISSIONS_CSV, mode_a)])%list)).
Proof.
  destruct (user (sess w)) as [u|] eqn:Hu;
    [|left; apply upload_refused; now auto].
  destruct (method req) eqn:Hm; [left; apply upload_refused; now auto|].
  destruct (lookup "resume" (files req)) as [resume|] eqn:Hr;
    [|left; apply upload_refused; now auto].
  destruct (truthy (strip (form_get req "name" ""))) eqn:Hn;
    [|left; apply upload_refused; now eauto 10].
  destruct (truthy (strip (form_get req "email" ""))) eqn:He;
    [|left; apply upload_refused; now eauto 10].
  destruct (truthy (strip (form_get req "skills" ""))) eqn:Hs;
    [|left; apply upload_refused; now eauto 10].
  destruct (truthy (filename resume)) eqn:Hf;
    [|left; apply upload_refused; now eauto 10].
  destruct (allowed_file (filename resume)) eqn:Ha;
    [|left; apply upload_refused; now eauto 10].
  right.
  destruct (upload_accepted generate_content json_loads secure_filename str_
              req w u resume Hu Hm Hr Hn He Hs Hf Ha)
    as (name & score & best_role & raw & Hname & Han & Hup).
  exists name, score, best_role, raw, resume. auto.
Qed.

End UploadCases.

Lemma upload_requires_login_of generate_content json_loads secure_filename str_ req w :
  user (sess w) = None ->
  upload generate_content json_loads secure_filename str_ req w
  = (Ok (redirect "login"),
     mkWorld (users_csv w) (submissions_csv w) (resumes w) (sess w)
             (flashes w ++ [("Please login to upload resume", "warning")])%list
             (opened w)).
Proof.
  intros Hu. unfold upload. unfold bind at 1.
  unfold get_session. cbv beta iota. rewrite Hu. run_handler w. reflexivity.
Qed.

(** X7. An upload from a client that is not logged in is answered with a
    redirect to the login page and the message to log in, whatever the
    request holds, a valid PDF included: no file is stored or opened and no
    row is written. *)
Theorem upload_requires_login :
  forall generate_content json_loads secure_filename str_ req w,
    user (sess w) = None ->
    upload generate_content json_loads secure_filename str_ req w
    = (Ok (redirect "login"),
       mkWorld (users_csv w) (submissions_csv w) (resumes w) (sess w)
               (flashes w ++ [("Please login to upload resume", "warning")])%list
               (opened w)).
Proof.
  intros gen loads sf str_ req w Hu. now apply upload_requires_login_of.
Qed.

Lemma upload_requires_login_witness :
  upload (Ref.replies (reply "90")) Json.loads Werkzeug.secure_filename Ref.py_str
         (upload_request "Ann" "resume.pdf") w_signed_up
  = (Ok (redirect "login"),
     mkWorld (users_csv w_signed_up) (submissions_csv w_signed_up)
             (resumes w_signed_up) (sess w_signed_up)
             (flashes w_signed_up ++ [("Please login to upload resume", "warning")])%list
             (opened w_signed_up)).
Proof.
  exact (upload_requires_login (Ref.replies (reply "90")) Json.loads
           Werkzeug.secure_filename Ref.py_str (upload_request "Ann" "resume.pdf")
           w_signed_up eq_refl).
Defined.





(** ** Histories *)

Lemma demo_reaches : reaches w_start w_dee.
Proof.
  unfold w_dee, w_cy, w_bob, w_ann, upload_with, w_logged_in, w_signed_up.
  repeat (eapply reaches_step; [|constructor]). apply reaches_refl.
Qed.

(** One request leaves every row and every stored file in place. *)
Lemma step_appends w w' :
  step w w' ->
  (forall t, users_csv w = Some t -> exists more, users_csv w' = Some (t ++ more)%list)
  /\ (forall t, submissions_csv w = Some t ->
                exists more, submissions_csv w' = Some (t ++ more)%list)
  /\ exists more, resumes w' = (resumes w ++ more)%list.
Proof.
  assert (Hsame : forall (A : Type) (f f' : option (list A)),
             f' = f -> forall t, f = Some t -> exists more, f' = Some (t ++ more)%list).
  { intros A f f' -> t ->. exists []. now rewrite app_nil_r. }
  assert (Hfiles : forall r r' : list (string * string),
             r' = r -> exists more, r' = (r ++ more)%list).
  { intros r r' ->. exists []. now rewrite app_nil_r. }
  intros Hstep. destruct Hstep as [req w|req w|w|gen loads sf str_ req w|w].
  - destruct (signup_stores req w) as (Hs & Hr & _ & Hu).
    split; [|split; [now apply Hsame | now apply Hfiles]].
    destruct Hu as [Hu|(t & r & _ & Ht & Hu)]; [now apply Hsame|].
    intros t' Ht'. rewrite Ht in Ht'. injection Ht' as <-. eauto.
  - destruct (login_stores req w) as (Hu & Hs & Hr).
    split; [now apply Hsame|]. split; [now apply Hsame | now apply Hfiles].
  - destruct (logout_stores w) as (Hu & Hs & Hr).
    split; [now apply Hsame|]. split; [now apply Hsame | now apply Hfiles].
  - destruct (upload_cases gen loads sf str_ req w)
      as [(r & fl & ->)|(name & score & role & raw & resume & _ & _ & _ & ->)];
      cbn [snd users_csv submissions_csv resumes].
    + split; [now apply Hsame|]. split; [now apply Hsame | now apply Hfiles].
    + split; [now apply Hsame|]. split; [|eauto].
      intros t ->. cbn [rows_of]. eauto.
  - destruct (admin_dashboard_stores w) as (Hu & Hs & Hr & _).
    split; [now apply Hsame|]. split; [now apply Hsame | now apply Hfiles].
Qed.

(** X10. The stores only grow. Whatever requests are handled, in whatever
    order, the rows the users file and the ledger had are still there, in
    place and unchanged, followed by the rows added since, and so are the
    stored files with their bytes: no handler rewrites or deletes a row or
    a file. *)
Theorem stores_only_grow :
  forall w w',
    reaches w w' ->
    (forall t, users_csv w = Some t -> exists more, users_csv w' = Some (t ++ more)%list)
    /\ (forall t, submissions_csv w = Some t ->
                  exists more, submissions_csv w' = Some (t ++ more)%list)
    /\ exists more, resumes w' = (resumes w ++ more)%list.
Proof.
  induction 1 as [w|w w' w'' _ (IHu & IHs & IHr) Hstep].
  - repeat split; [intros t -> | intros t -> |]; exists []; now rewrite app_nil_r.
  - destruct (step_appends _ _ Hstep) as (Hu & Hs & Hr). repeat split.
    + intros t Ht. destruct (IHu _ Ht) as [m1 H1]. destruct (Hu _ H1) as [m2 H2].
      exists (m1 ++ m2)%list. now rewrite app_assoc.
    + intros t Ht. destruct (IHs _ Ht) as [m1 H1]. destruct (Hs _ H1) as [m2 H2].
      exists (m1 ++ m2)%list. now rewrite app_assoc.
    + destruct IHr as [m1 H1]. destruct Hr as [m2 H2].
      exists (m1 ++ m2)%list. now rewrite app_assoc, <- H1.
Qed.

Lemma stores_only_grow_witness :
  (forall t, users_csv w_start = Some t ->
             exists more, users_csv w_dee = Some (t ++ more)%list)
  /\ (forall t, submissions_csv w_start = Some t ->
                exists more, submissions_csv w_dee = Some (t ++ more)%list)
  /\ exists more, resumes w_dee = (resumes w_start ++ more)%list.
Proof. exact (stores_only_grow w_start w_dee demo_reaches). Defined.






(** X13. The start-up code never overwrites a file: it keeps a users file
    and a ledger that exist with all their rows, creates each one that does
    not exist with its header (and the seeded administrator), and touches
    neither the resumes nor the session. Running it twice is the same as
    running it once, and running it in a state the application has reached
    changes nothing: a restart loses no account and no submission. *)
Theorem startup_keeps_data :
  (forall w t, users_csv w = Some t -> users_csv (startup w) = Some t)
  /\ (forall w t, submissions_csv w = Some t -> submissions_csv (startup w) = Some t)
  /\ (forall w, users_csv w = None ->
                users_csv (startup w) = Some [users_header; admin_row])
  /\ (forall w, submissions_csv w = None ->
                submissions_csv (startup w) = Some [submissions_header])
  /\ (forall w, resumes (startup w) = resumes w /\ sess (startup w) = sess w)
  /\ (forall w, startup (startup w) = startup w)
  /\ (forall w, reachable w -> startup w = w).
Proof.
  assert (Hexists : forall w t1 t2,
             users_csv w = Some t1 -> submissions_csv w = Some t2 -> startup w = w).
  { intros w t1 t2 H1 H2. unfold startup. rewrite H1, H2. reflexivity. }
  repeat split.
  - intros w t H. unfold startup. rewrite H.
    destruct (submissions_csv w); cbn; exact H.
  - intros w t H. unfold startup. destruct (users_csv w); cbn; rewrite H; exact H.
  - intros w H. unfold startup. rewrite H. cbn.
    destruct (submissions_csv w); reflexivity.
  - intros w H. unfold startup. destruct (users_csv w); cbn; rewrite H; reflexivity.
  - unfold startup. destruct (users_csv w); cbn; destruct (submissions_csv w); reflexivity.
  - unfold startup. destruct (users_csv w); cbn; destruct (submissions_csv w); reflexivity.
  - intros w. unfold startup.
    destruct w as [[u|] [s|] r se fl op]; reflexivity.
  - intros w Hw. destruct (reachable_inv _ Hw) as [(us & Hus & _) (ss & Hss & _)].
    exact (Hexists _ _ _ Hus Hss).
Qed.

Lemma startup_keeps_data_witness :
  users_csv (startup w_dee) = users_csv w_dee
  /\ startup w_dee = w_dee.
Proof.
  destruct startup_keeps_data as (Hu & _ & _ & _ & _ & _ & Hreach). split.
  - apply (Hu w_dee). reflexivity.
  - apply Hreach. exact demo_reachable.
Defined.

(** ** What is read back from the files *)

Lemma reads_back s :
  contains "013" s = false -> Csv.universal_newlines s = s.
Proof.
  induction s as [|c s IH]; [reflexivity|]. cbn [contains Csv.universal_newlines].
  intros H. apply orb_false_elim in H. destruct H as [Hc Hs].
  rewrite Ascii.eqb_sym in Hc. rewrite Hc. now rewrite IH.
Qed.








(** ** Accounts over time *)

Lemma signup_users_cases req w :
  users_csv (snd (signup req w)) = users_csv w
  \/ exists t,
      users_csv w = Some t
      /\ truthy (strip (form_get req "email" "")) = true
      /\ truthy (strip (form_get req "password" "")) = true
      /\ existsb (fun row => field_is row "Email" (strip (form_get req "email" "")))
                 (Csv.read_file t) = false
      /\ users_csv (snd (signup req w))
         = Some (t ++ [[strip (form_get req "email" "");
                        strip (form_get req "password" ""); "0"]])%list.
Proof.
  destruct (method req) eqn:Hm.
  { left. unfold signup. rewrite Hm. reflexivity. }
  destruct (truthy (strip (form_get req "email" ""))) eqn:He;
    [|left; rewrite signup_incomplete by auto; reflexivity].
  destruct (truthy (strip (form_get req "password" ""))) eqn:Hp;
    [|left; rewrite signup_incomplete by auto; reflexivity].
  destruct (users_csv w) as [t|] eqn:Ht.
  - rewrite (signup_post req w t Hm Ht He Hp).
    destruct (existsb _ _) eqn:Hex; cbn [snd users_csv]; [now left|].
    right. exists t. auto.
  - left. destruct (signup_stores req w) as (_ & _ & _ & [H|(t & r & _ & Hc & _)]);
      [now rewrite H | congruence].
Qed.

Lemma trimmed_account_row r : trimmed_account r -> account_row r.
Proof. intros (e & p & -> & _). unfold account_row. eauto. Qed.

(** The scan of [signup] misses an identifier only when no row is read back
    with it. *)
Lemma email_check rows email :
  Forall account_row rows ->
  existsb (fun row => field_is row "Email" email)
          (Csv.read_file (users_header :: admin_row :: rows)) = false ->
  forall r, In r (admin_row :: rows) ->
            Csv.universal_newlines (identifier r) <> email.
Proof.
  intros Hall Hex r Hin Heq.
  destruct (users_records _ Hall) as [Hrec _]. rewrite Hrec in Hex.
  assert (Htrue : existsb (fun row => field_is row "Email" email)
                          (map (Csv.make_record users_header)
                               (admin_row :: Csv.text_mode rows)) = true);
    [|congruence].
  apply existsb_exists.
  exists (Csv.make_record users_header (map Csv.universal_newlines r)). split.
  - apply in_map. destruct Hin as [<-|Hin]; [now left|]. right.
    unfold Csv.text_mode. now apply in_map.
  - destruct Hin as [<-|Hin].
    + change (String.eqb "admin@admin.com" email = true).
      apply String.eqb_eq. exact Heq.
    + rewrite Forall_forall in Hall. destruct (Hall _ Hin) as (e & p & ->).
      cbn [identifier hd] in Heq. cbn [map]. rewrite user_record.
      unfold field_is. cbn. now apply String.eqb_eq.
Qed.

(** The users file in the states the application reaches. *)
Lemma reachable_accounts w :
  reachable w ->
  exists rows,
    users_csv w = Some (users_header :: admin_row :: rows)
    /\ Forall trimmed_account rows
    /\ forall email,
        contains "013" email = false ->
        (count_occ string_dec (map identifier (admin_row :: rows)) email <= 1)%nat.
Proof.
  induction 1 as [|w w' Hw (rows & Hrows & Htrim & Huniq) Hstep].
  - exists []. repeat split; [constructor|]. intros email _. cbn [map count_occ].
    destruct (string_dec (identifier admin_row) email); lia.
  - assert (Hsame : users_csv w' = users_csv w ->
                    exists rows',
                      users_csv w' = Some (users_header :: admin_row :: rows')
                      /\ Forall trimmed_account rows'
                      /\ forall email,
                          contains "013" email = false ->
                          (count_occ string_dec
                                     (map identifier (admin_row :: rows')) email <= 1)%nat).
    { intros ->. exists rows. auto. }
    destruct Hstep as [req w|req w|w|gen loads sf str_ req w|w].
    + destruct (signup_users_cases req w) as [H|(t & Ht & He & Hp & Hex & Hnew)];
        [now apply Hsame|].
      rewrite Hrows in Ht. injection Ht as <-.
      set (e := strip (form_get req "email" "")) in *.
      set (p := strip (form_get req "password" "")) in *.
      exists (rows ++ [[e; p; "0"]])%list. split; [exact Hnew|]. split.
      * apply Forall_app. split; [exact Htrim|]. repeat constructor.
        exists e, p. repeat split; try assumption; apply strip_idem.
      * intros email Hcr.
        change (admin_row :: rows ++ [[e; p; "0"]])%list
          with ((admin_row :: rows) ++ [[e; p; "0"]])%list.
        rewrite map_app, count_occ_app.
        change (count_occ string_dec (map identifier [[e; p; "0"]]) email)
          with (if string_dec e email then 1%nat else 0%nat).
        destruct (string_dec e email) as [Heq|Hne]; [|specialize (Huniq _ Hcr); lia].
        assert (Hnot : ~ In email (map identifier (admin_row :: rows))).
        { intros Hin. apply in_map_iff in Hin. destruct Hin as (r & Hr & Hin).
          assert (Hall : Forall account_row rows).
          { eapply Forall_impl; [|exact Htrim]. apply trimmed_account_row. }
          apply (email_check rows e Hall Hex r Hin).
          rewrite Hr, Heq. now apply reads_back. }
        apply (count_occ_not_In string_dec) in Hnot. lia.
    + destruct (login_stores req w) as (Hu & _). now apply Hsame.
    + destruct (logout_stores w) as (Hu & _). now apply Hsame.
    + destruct (upload_stores gen loads sf str_ req w) as (Hu & _). now apply Hsame.
    + destruct (admin_dashboard_stores w) as (Hu & _). now apply Hsame.
Qed.



(** X16. In every state the application reaches, an identifier that has no
    carriage return is the identifier of at most one row of the users file:
    the scan of [signup] keeps such an identifier from being written
    twice. *)
Theorem identifiers_are_unique :
  forall w,
    reachable w ->
    exists rows,
      users_csv w = Some (users_header :: admin_row :: rows)
      /\ forall email,
          contains "013" email = false ->
          (count_occ string_dec (map identifier (admin_row :: rows)) email <= 1)%nat.
Proof.
  intros w Hw. destruct (reachable_accounts w Hw) as (rows & Hrows & _ & Huniq).
  exists rows. auto.
Qed.

Lemma identifiers_are_unique_witness :
  exists rows,
    users_csv w_dee = Some (users_header :: admin_row :: rows)
    /\ forall email,
        contains "013" email = false ->
        (count_occ string_dec (map identifier (admin_row :: rows)) email <= 1)%nat.
Proof. exact (identifiers_are_unique w_dee demo_reachable). Defined.








(** ** Sessions *)

(** X19. A logout ends the session: whatever the session was, the
    administrator's included, the state after it has neither a user nor the
    administrator flag, the files are as before, the dashboard answers the
    next request with a redirect to the login page, and so does the upload
    handler, for every request. *)
Theorem logout_ends_session :
  forall w,
    logout w
    = (Ok (redirect "login"),
       mkWorld (users_csv w) (submissions_csv w) (resumes w) (mkSession None None)
               [("Logged out successfully", "info")] (opened w))
    /\ fst (admin_dashboard (snd (logout w))) = Ok (redirect "login")
    /\ forall generate_content json_loads secure_filename str_ req,
        upload generate_content json_loads secure_filename str_ req (snd (logout w))
        = (Ok (redirect "login"),
           mkWorld (users_csv w) (submissions_csv w) (resumes w) (mkSession None None)
                   [("Logged out successfully", "info");
                    ("Please login to upload resume", "warning")] (opened w)).
Proof.
  intros w.
  assert (Hout : logout w
                 = (Ok (redirect "login"),
                    mkWorld (users_csv w) (submissions_csv w) (resumes w)
                            (mkSession None None)
                            [("Logged out successfully", "info")] (opened w))).
  { unfold logout. run_handler w. reflexivity. }
  split; [exact Hout|]. rewrite Hout. cbn [snd]. split.
  - rewrite admin_dashboard_refused by discriminate. reflexivity.
  - intros gen loads sf str_ req.
    rewrite upload_requires_login_of by reflexivity. reflexivity.
Qed.

(** ** The dashboard of the administrator *)



(** ** From an upload to the ranking *)


